(** * Statistics presenter of uhabit: cache trust, offline fallback, sync outcome

    Shallow embedding of [createStatisticsPresenter]
    (src/lib/presenters/statisticsPresenter.ts).

    - The presenter's closure variables ([cache], [habits], [completions]) and
      its published svelte store ([state]) form one record, [Presenter].
    - Presenter code is written in a small free monad, [Task]: synchronous
      steps on the presenter, reads of the system clock ([new Date()]),
      awaited calls to the Local Store and the Remote Data Gateway, and calls
      whose promise is not awaited.  [try_catch] is JavaScript's try/catch.
    - The outside world (store, gateway, clock) is any state machine answering
      the calls; theorems quantify over all of them.
    - [Date] is a time value, a number of milliseconds since the epoch.
      [setHours] and [setDate] work on the local wall clock of the host's time
      zone, [TimeZone]: the time value is taken to local time, changed there,
      and taken back, so that neither is an addition of milliseconds where
      the zone's offset changes.  Console output is left out.
      [initialize] (window listeners, [navigator]) is not embedded. *)

From Stdlib Require Import ZArith List String Bool Lia.
Import ListNotations.
Open Scope Z_scope.
Open Scope list_scope.

(** ** Plain data *)

Definition Date := Z.
Definition Error := string.

Definition MS_PER_HOUR : Z := 3600000.
Definition MS_PER_DAY : Z := 86400000.

Inductive Scope : Type := daily | weekly | monthly.

Record DateRange : Type := { from : Date; to : Date }.

Inductive Result (X : Type) : Type :=
| Ok (x : X)
| Err (e : Error).
Arguments Ok {X} x.
Arguments Err {X} e.

(** JavaScript truthiness of a [string | null] value: null, undefined and the
    empty string are falsy. *)
Definition truthy (o : option string) : bool :=
  match o with
  | Some s => negb (String.eqb s EmptyString)
  | None => false
  end.

(** [a !== b] on [string | null] values. *)
Definition strict_neq (a b : option string) : bool :=
  match a, b with
  | Some x, Some y => negb (String.eqb x y)
  | None, None => false
  | _, _ => true
  end.

(** Sync metadata kept by the Local Store. *)
Record StatsMetadata : Type := {
  lastHabitsSync : option Date;
  lastCompletionsSync : option Date;
  version : Z;
  meta_userId : option string
}.

(** ** Types and functions imported by the presenter

    [$lib/types/habit] and [$lib/stats/types] are not part of the sources at
    hand: the record types the presenter only passes around stay abstract,
    and [number] (IEEE doubles) is abstract with its subtraction. *)
Class StatsTypes : Type := {
  Habit : Type;
  userId : Habit -> string;
  HabitCompletion : Type;
  number : Type;
  number_sub : number -> number -> number;
  BestDay : Type;
  HabitTrend : Type;
  HeatCell : Type;
  TrendPick : Type;
  Insights : Type;
  ActivityItem : Type
}.

(** ** The host's time zone

    ECMAScript's [LocalTime(t)] and [UTC(t)] (ECMA-262, 21.4.1): [LocalTime]
    takes a time value to the reading of the local wall clock, [UTC] takes a
    wall-clock reading back to a time value.  Where the zone's offset changes
    they are not inverse to each other: a reading that the wall clock shows
    twice, or skips, is read with the offset in force before the change.
    Time values stay within the range of [TimeClip]. *)
Class TimeZone : Type := {
  LocalTime : Date -> Z;
  UTC : Z -> Date
}.

Section Presenter.

Context {T : StatsTypes}.

Record RateResult : Type := { rate : number; completed : number }.
Record StreakResult : Type := { currentStreak : number; longestStreak : number }.
Record PeriodRanges : Type := { current : DateRange; previous : DateRange }.

Record PeriodStats : Type := {
  ps_rangeLabel : string;
  ps_completionRate : number;
  ps_bestDay : BestDay;
  ps_completions : number;
  ps_streak : number;
  ps_longestStreak : number
}.

Record Snapshot : Type := {
  sn_currentStreak : number;
  sn_overallCompletion : number;
  sn_weeklyDelta : number;
  sn_mostConsistent : TrendPick;
  sn_needsAttention : TrendPick
}.

Record ComputedStatistics : Type := {
  c_periodStats : PeriodStats;
  c_trends : list HabitTrend;
  c_heatmap : list HeatCell;
  c_snapshot : Snapshot;
  c_insights : Insights;
  c_activity : list ActivityItem
}.

(** The aggregation functions of [$lib/stats], the helpers of
    [./statisticsHelpers] and [STATS_CACHE.HISTORY_DAYS]: pure functions,
    taken as parameters. *)
Class StatsLib : Type := {
  HISTORY_DAYS : Z;
  computeCompletionRate : list Habit -> list HabitCompletion -> DateRange -> RateResult;
  computeOverallStreak : list Habit -> list HabitCompletion -> Date -> StreakResult;
  computeHeatmap : list Habit -> list HabitCompletion -> DateRange -> Scope -> list HeatCell;
  computeTrends : list Habit -> list HabitCompletion -> Scope -> Date -> list HabitTrend;
  computeInsights : list Habit -> list HabitCompletion -> DateRange -> Date -> Insights;
  getHeatmapRange : Scope -> Date -> DateRange;
  getPeriodRanges : Scope -> Date -> PeriodRanges;
  findMostConsistent : list HabitTrend -> TrendPick;
  findNeedsAttention : list HabitTrend -> TrendPick;
  findBestDayOfWeek : list Habit -> list HabitCompletion -> DateRange -> BestDay;
  findBestDate : list Habit -> list HabitCompletion -> DateRange -> BestDay;
  formatRangeLabel : Scope -> Date -> string;
  buildActivity : list HabitTrend -> list ActivityItem;
  getDateKey : Scope -> Date -> string
}.

Context {L : StatsLib}.
Context {TZ : TimeZone}.

(** ** Published state and presenter *)

Record StatisticsState : Type := {
  scope : Scope;
  selectedDate : Date;
  isLoading : bool;
  isSyncing : bool;
  isOffline : bool;
  error : option string;
  lastSync : option Date;
  periodStats : option PeriodStats;
  trends : list HabitTrend;
  heatmap : list HeatCell;
  snapshot : option Snapshot;
  insights : option Insights;
  activity : list ActivityItem
}.

(** The handle returned by [cacheFactory()]; [cache] is [null] until
    [initialize] has run in a browser. *)
Inductive StatsCache : Type := LocalStore.

Record Presenter : Type := {
  state : StatisticsState;
  cache : option StatsCache;
  habits : list Habit;
  completions : list HabitCompletion
}.

Definition initialState (initialScope : Scope) (initialDate : Date) : StatisticsState :=
  {| scope := initialScope; selectedDate := initialDate;
     isLoading := true; isSyncing := false; isOffline := false;
     error := None; lastSync := None;
     periodStats := None; trends := []; heatmap := [];
     snapshot := None; insights := None; activity := [] |}.

Definition createStatisticsPresenter (initialScope : Scope) (initialDate : Date) : Presenter :=
  {| state := initialState initialScope initialDate;
     cache := None; habits := []; completions := [] |}.

(** The six computed fields of the published state. *)
Record StatsView : Type := {
  v_periodStats : option PeriodStats;
  v_trends : list HabitTrend;
  v_heatmap : list HeatCell;
  v_snapshot : option Snapshot;
  v_insights : option Insights;
  v_activity : list ActivityItem
}.

Definition statsView (s : StatisticsState) : StatsView :=
  {| v_periodStats := periodStats s; v_trends := trends s; v_heatmap := heatmap s;
     v_snapshot := snapshot s; v_insights := insights s; v_activity := activity s |}.

Definition viewOf (c : ComputedStatistics) : StatsView :=
  {| v_periodStats := Some (c_periodStats c); v_trends := c_trends c;
     v_heatmap := c_heatmap c; v_snapshot := Some (c_snapshot c);
     v_insights := Some (c_insights c); v_activity := c_activity c |}.

Definition emptyView : StatsView :=
  {| v_periodStats := None; v_trends := []; v_heatmap := [];
     v_snapshot := None; v_insights := None; v_activity := [] |}.

(** *** The object spreads passed to [update] *)

(** [{ ...s, isSyncing: true, error: null }] *)
Definition syncStarted (s : StatisticsState) : StatisticsState :=
  {| scope := scope s; selectedDate := selectedDate s;
     isLoading := isLoading s; isSyncing := true; isOffline := isOffline s;
     error := None; lastSync := lastSync s;
     periodStats := periodStats s; trends := trends s; heatmap := heatmap s;
     snapshot := snapshot s; insights := insights s; activity := activity s |}.

(** [{ ...s, isLoading: false, periodStats: null, trends: [], ... }] *)
Definition statsCleared (s : StatisticsState) : StatisticsState :=
  {| scope := scope s; selectedDate := selectedDate s;
     isLoading := false; isSyncing := isSyncing s; isOffline := isOffline s;
     error := error s; lastSync := lastSync s;
     periodStats := None; trends := []; heatmap := [];
     snapshot := None; insights := None; activity := [] |}.

(** [{ ...s, isLoading: false, ...computed }] *)
Definition statsApplied (c : ComputedStatistics) (s : StatisticsState) : StatisticsState :=
  {| scope := scope s; selectedDate := selectedDate s;
     isLoading := false; isSyncing := isSyncing s; isOffline := isOffline s;
     error := error s; lastSync := lastSync s;
     periodStats := Some (c_periodStats c); trends := c_trends c;
     heatmap := c_heatmap c; snapshot := Some (c_snapshot c);
     insights := Some (c_insights c); activity := c_activity c |}.

(** [{ ...s, isOffline }] *)
Definition offlineSet (b : bool) (s : StatisticsState) : StatisticsState :=
  {| scope := scope s; selectedDate := selectedDate s;
     isLoading := isLoading s; isSyncing := isSyncing s; isOffline := b;
     error := error s; lastSync := lastSync s;
     periodStats := periodStats s; trends := trends s; heatmap := heatmap s;
     snapshot := snapshot s; insights := insights s; activity := activity s |}.

(** [{ ...s, isSyncing: false, lastSync: new Date() }] *)
Definition syncFinished (d : Date) (s : StatisticsState) : StatisticsState :=
  {| scope := scope s; selectedDate := selectedDate s;
     isLoading := isLoading s; isSyncing := false; isOffline := isOffline s;
     error := error s; lastSync := Some d;
     periodStats := periodStats s; trends := trends s; heatmap := heatmap s;
     snapshot := snapshot s; insights := insights s; activity := activity s |}.

Definition SYNC_ERROR_MESSAGE : string := "Failed to load statistics. Please try again."%string.

(** [{ ...s, isLoading: false, isSyncing: false, error: '...' }] *)
Definition syncFailed (s : StatisticsState) : StatisticsState :=
  {| scope := scope s; selectedDate := selectedDate s;
     isLoading := false; isSyncing := false; isOffline := isOffline s;
     error := Some SYNC_ERROR_MESSAGE; lastSync := lastSync s;
     periodStats := periodStats s; trends := trends s; heatmap := heatmap s;
     snapshot := snapshot s; insights := insights s; activity := activity s |}.

(** [{ ...s, scope, isLoading: true }] *)
Definition scopeChosen (sc : Scope) (s : StatisticsState) : StatisticsState :=
  {| scope := sc; selectedDate := selectedDate s;
     isLoading := true; isSyncing := isSyncing s; isOffline := isOffline s;
     error := error s; lastSync := lastSync s;
     periodStats := periodStats s; trends := trends s; heatmap := heatmap s;
     snapshot := snapshot s; insights := insights s; activity := activity s |}.

(** [{ ...s, selectedDate: date, isLoading: true }] *)
Definition dateChosen (d : Date) (s : StatisticsState) : StatisticsState :=
  {| scope := scope s; selectedDate := d;
     isLoading := true; isSyncing := isSyncing s; isOffline := isOffline s;
     error := error s; lastSync := lastSync s;
     periodStats := periodStats s; trends := trends s; heatmap := heatmap s;
     snapshot := snapshot s; insights := insights s; activity := activity s |}.

Definition with_state (f : StatisticsState -> StatisticsState) (p : Presenter) : Presenter :=
  {| state := f (state p); cache := cache p;
     habits := habits p; completions := completions p |}.

Definition with_habits (hs : list Habit) (p : Presenter) : Presenter :=
  {| state := state p; cache := cache p; habits := hs; completions := completions p |}.

Definition with_completions (cs : list HabitCompletion) (p : Presenter) : Presenter :=
  {| state := state p; cache := cache p; habits := habits p; completions := cs |}.

Definition with_cache (c : option StatsCache) (p : Presenter) : Presenter :=
  {| state := state p; cache := c; habits := habits p; completions := completions p |}.

(** ** Calls to the Local Store ([StatsCache]) and the gateway ([StatsApi]) *)

Inductive Call : Type -> Type :=
| CacheGetMetadata : Call (option StatsMetadata)
| CacheSetMetadata (m : StatsMetadata) : Call unit
| CacheGetHabits : Call (list Habit)
| CacheSetHabits (hs : list Habit) : Call unit
| CacheGetCompletions : Call (list HabitCompletion)
| CacheAddCompletions (cs : list HabitCompletion) : Call unit
| CacheClearAll : Call unit
| ApiFetchHabits : Call (list Habit)
| ApiFetchCompletions (since : Date) : Call (list HabitCompletion)
| ApiSetServerCache (sc : Scope) (dateKey : string)
    (computed : ComputedStatistics) (validUntil : Date) : Call unit.

(** What an observer of the presenter's boundary sees: clock readings and
    every call with its arguments and the way its promise settled. *)
Inductive Event : Type :=
| ENow (d : Date)
| EGetMetadata (r : Result (option StatsMetadata))
| ESetMetadata (m : StatsMetadata) (r : Result unit)
| EGetHabits (r : Result (list Habit))
| ESetHabits (hs : list Habit) (r : Result unit)
| EGetCompletions (r : Result (list HabitCompletion))
| EAddCompletions (cs : list HabitCompletion) (r : Result unit)
| EClearAll (r : Result unit)
| EFetchHabits (r : Result (list Habit))
| EFetchCompletions (since : Date) (r : Result (list HabitCompletion))
| ESetServerCache (sc : Scope) (dateKey : string)
    (computed : ComputedStatistics) (validUntil : Date) (r : Result unit)
| EUnhandledRejection (e : Error).

Definition log {X : Type} (c : Call X) : Result X -> Event :=
  match c in Call X return Result X -> Event with
  | CacheGetMetadata => EGetMetadata
  | CacheSetMetadata m => ESetMetadata m
  | CacheGetHabits => EGetHabits
  | CacheSetHabits hs => ESetHabits hs
  | CacheGetCompletions => EGetCompletions
  | CacheAddCompletions cs => EAddCompletions cs
  | CacheClearAll => EClearAll
  | ApiFetchHabits => EFetchHabits
  | ApiFetchCompletions since => EFetchCompletions since
  | ApiSetServerCache sc k c v => ESetServerCache sc k c v
  end.

(** Operation names, for classifying calls and events. *)
Inductive Op : Type :=
| OpClock | OpGetMetadata | OpSetMetadata | OpGetHabits | OpSetHabits
| OpGetCompletions | OpAddCompletions | OpClearAll
| OpFetchHabits | OpFetchCompletions | OpSetServerCache | OpUnhandled.

Definition call_op {X : Type} (c : Call X) : Op :=
  match c with
  | CacheGetMetadata => OpGetMetadata
  | CacheSetMetadata _ => OpSetMetadata
  | CacheGetHabits => OpGetHabits
  | CacheSetHabits _ => OpSetHabits
  | CacheGetCompletions => OpGetCompletions
  | CacheAddCompletions _ => OpAddCompletions
  | CacheClearAll => OpClearAll
  | ApiFetchHabits => OpFetchHabits
  | ApiFetchCompletions _ => OpFetchCompletions
  | ApiSetServerCache _ _ _ _ => OpSetServerCache
  end.

Definition event_op (e : Event) : Op :=
  match e with
  | ENow _ => OpClock
  | EGetMetadata _ => OpGetMetadata
  | ESetMetadata _ _ => OpSetMetadata
  | EGetHabits _ => OpGetHabits
  | ESetHabits _ _ => OpSetHabits
  | EGetCompletions _ => OpGetCompletions
  | EAddCompletions _ _ => OpAddCompletions
  | EClearAll _ => OpClearAll
  | EFetchHabits _ => OpFetchHabits
  | EFetchCompletions _ _ => OpFetchCompletions
  | ESetServerCache _ _ _ _ _ => OpSetServerCache
  | EUnhandledRejection _ => OpUnhandled
  end.

Definition Op_eqb (a b : Op) : bool :=
  match a, b with
  | OpClock, OpClock | OpGetMetadata, OpGetMetadata | OpSetMetadata, OpSetMetadata
  | OpGetHabits, OpGetHabits | OpSetHabits, OpSetHabits
  | OpGetCompletions, OpGetCompletions | OpAddCompletions, OpAddCompletions
  | OpClearAll, OpClearAll | OpFetchHabits, OpFetchHabits
  | OpFetchCompletions, OpFetchCompletions | OpSetServerCache, OpSetServerCache
  | OpUnhandled, OpUnhandled => true
  | _, _ => false
  end.

(** The operations that write to the Local Store. *)
Definition is_store_write (o : Op) : bool :=
  match o with
  | OpSetMetadata | OpSetHabits | OpAddCompletions => true
  | _ => false
  end.

Definition ops (tr : list Event) : list Op := map event_op tr.

Definition count_op (o : Op) (tr : list Event) : nat :=
  List.length (filter (fun e => Op_eqb (event_op e) o) tr).

Definition invoked (o : Op) (tr : list Event) : bool :=
  existsb (fun e => Op_eqb (event_op e) o) tr.

(** [clearAll] is invoked, and no store write precedes its first invocation. *)
Fixpoint cleared_before_writing (tr : list Event) : bool :=
  match tr with
  | [] => false
  | e :: tr' =>
      if Op_eqb (event_op e) OpClearAll then true
      else if is_store_write (event_op e) then false
      else cleared_before_writing tr'
  end.

(** ** The task monad *)

Inductive Outcome (R : Type) : Type :=
| Returned (r : R)
| Threw (e : Error).
Arguments Returned {R} r.
Arguments Threw {R} e.

Inductive Task (R : Type) : Type :=
| Ret (r : R)
| Throw (e : Error)
| Step {A : Type} (f : Presenter -> A * Presenter) (k : A -> Task R)
| Now (k : Date -> Task R)
| Await {X : Type} (c : Call X) (k : Result X -> Task R)
| Fire {X : Type} (c : Call X) (catches : bool) (k : Task R).
Arguments Ret {R} r.
Arguments Throw {R} e.
Arguments Step {R A} f k.
Arguments Now {R} k.
Arguments Await {R X} c k.
Arguments Fire {R X} c catches k.

Fixpoint bind {A B : Type} (t : Task A) (g : A -> Task B) : Task B :=
  match t with
  | Ret a => g a
  | Throw e => Throw e
  | Step f k => Step f (fun a => bind (k a) g)
  | Now k => Now (fun d => bind (k d) g)
  | Await c k => Await c (fun r => bind (k r) g)
  | Fire c b k => Fire c b (bind k g)
  end.

(** [try { t } catch (e) { h e }] *)
Fixpoint try_catch {R : Type} (t : Task R) (h : Error -> Task R) : Task R :=
  match t with
  | Ret r => Ret r
  | Throw e => h e
  | Step f k => Step f (fun a => try_catch (k a) h)
  | Now k => Now (fun d => try_catch (k d) h)
  | Await c k => Await c (fun r => try_catch (k r) h)
  | Fire c b k => Fire c b (try_catch k h)
  end.

Declare Scope task_scope.
Delimit Scope task_scope with task.
Notation "x <- t ;; k" := (bind t (fun x => k))
  (at level 61, t at next level, right associativity) : task_scope.
Notation "t ;; k" := (bind t (fun _ => k))
  (at level 61, right associativity) : task_scope.
Open Scope task_scope.

(** [await c]: resume with the value, or throw the rejection. *)
Definition await {X : Type} (c : Call X) : Task X :=
  Await c (fun r => match r with Ok x => Ret x | Err e => Throw e end).

(** [c.catch(() => {})], not awaited. *)
Definition fire_and_forget {X : Type} (c : Call X) : Task unit :=
  Fire c true (Ret tt).

Definition now : Task Date := Now Ret.

(** [update(f)] and [getState()] on the svelte store; reads and writes of
    the closure variables. *)
Definition update (f : StatisticsState -> StatisticsState) : Task unit :=
  Step (fun p => (tt, with_state f p)) Ret.

Definition getState : Task StatisticsState :=
  Step (fun p => (state p, p)) Ret.

Definition read {A : Type} (proj : Presenter -> A) : Task A :=
  Step (fun p => (proj p, p)) Ret.

Definition assign (f : Presenter -> Presenter) : Task unit :=
  Step (fun p => (tt, f p)) Ret.


(** ** The presenter's functions *)

(** The reduction pass of [computeStatistics] (the code between the empty
    guard and the final [update]). *)
Definition reduceStatistics (hs : list Habit) (cs : list HabitCompletion)
    (sc : Scope) (date : Date) : ComputedStatistics :=
  let ranges := getPeriodRanges sc date in
  let currentRange := current ranges in
  let previousRange := previous ranges in
  let heatmapRange := getHeatmapRange sc date in
  let currentRate := computeCompletionRate hs cs currentRange in
  let previousRate := computeCompletionRate hs cs previousRange in
  let overallStreak := computeOverallStreak hs cs date in
  let heatmap := computeHeatmap hs cs heatmapRange sc in
  let trends := computeTrends hs cs sc date in
  let insights := computeInsights hs cs heatmapRange date in
  let periodStats :=
    {| ps_rangeLabel := formatRangeLabel sc date;
       ps_completionRate := rate currentRate;
       ps_bestDay :=
         match sc with
         | daily => findBestDayOfWeek hs cs heatmapRange
         | _ => findBestDate hs cs currentRange
         end;
       ps_completions := completed currentRate;
       ps_streak := currentStreak overallStreak;
       ps_longestStreak := longestStreak overallStreak |} in
  let snapshot :=
    {| sn_currentStreak := currentStreak overallStreak;
       sn_overallCompletion := rate currentRate;
       sn_weeklyDelta := number_sub (rate currentRate) (rate previousRate);
       sn_mostConsistent := findMostConsistent trends;
       sn_needsAttention := findNeedsAttention trends |} in
  {| c_periodStats := periodStats;
     c_trends := trends;
     c_heatmap := heatmap;
     c_snapshot := snapshot;
     c_insights := insights;
     c_activity := buildActivity trends |}.

Definition computeStatistics (sc : Scope) (date : Date) : Task (option ComputedStatistics) :=
  hs <- read habits ;;
  match hs with
  | [] =>
      update statsCleared ;;
      Ret None
  | _ :: _ =>
      cs <- read completions ;;
      let computed := reduceStatistics hs cs sc date in
      update (statsApplied computed) ;;
      Ret (Some computed)
  end.

Definition applyStats (stats : ComputedStatistics) : Task unit :=
  update (statsApplied stats).

(** [d.setHours(d.getHours() + n)]: the hour field of the local time is
    raised by [n], an hour past 23 carrying into the day ([MakeTime],
    [MakeDate]), so the wall-clock reading moves by [n] hours; the result is
    [UTC] of that reading. *)
Definition addLocalHours (n : Z) (d : Date) : Date :=
  UTC (LocalTime d + n * MS_PER_HOUR).

(** [d.setDate(d.getDate() - n)]: the day of the month is lowered by [n], a
    day before the first carrying into the earlier months ([MakeDay]), the
    time within the day kept; the result is [UTC] of that reading. *)
Definition subLocalDays (n : Z) (d : Date) : Date :=
  UTC (LocalTime d - n * MS_PER_DAY).

Definition getFetchFromDate (heatmapRange : DateRange) : Task Date :=
  today <- now ;;
  let historyStart := subLocalDays HISTORY_DAYS today in
  Ret (if from heatmapRange <? historyStart then from heatmapRange else historyStart).

Definition saveToServerCache (sc : Scope) (date : Date) (computed : ComputedStatistics)
    : Task unit :=
  let dateKey := getDateKey sc date in
  today <- now ;;
  let validUntil := addLocalHours 1 today in
  fire_and_forget (ApiSetServerCache sc dateKey computed validUntil).

(** [freshHabits.length > 0 ? freshHabits[0].userId : null] *)
Definition currentUserIdOf (freshHabits : list Habit) : option string :=
  match freshHabits with
  | h :: _ => Some (userId h)
  | [] => None
  end.

Definition userIdOf (metadata : option StatsMetadata) : option string :=
  match metadata with
  | Some m => meta_userId m
  | None => None
  end.

(** [metadata?.lastHabitsSync != null]; a [Date] object is always truthy, so
    this is also the truthiness of [metadata?.lastHabitsSync]. *)
Definition cacheHasData (metadata : option StatsMetadata) : bool :=
  match metadata with
  | Some m => match lastHabitsSync m with Some _ => true | None => false end
  | None => false
  end.

Definition cacheHasNoUserId (metadata : option StatsMetadata) : bool :=
  cacheHasData metadata && negb (truthy (userIdOf metadata)).

Definition userIdMismatch (metadata : option StatsMetadata) (currentUserId : option string)
    : bool :=
  truthy (userIdOf metadata) && truthy currentUserId
  && strict_neq (userIdOf metadata) currentUserId.

Definition suspiciousCache (metadata : option StatsMetadata) (currentUserId : option string)
    : bool :=
  negb (truthy currentUserId) && cacheHasData metadata.

Definition mustClear (metadata : option StatsMetadata) (freshHabits : list Habit) : bool :=
  let currentUserId := currentUserIdOf freshHabits in
  cacheHasNoUserId metadata
  || userIdMismatch metadata currentUserId
  || suspiciousCache metadata currentUserId.

(** Body of the inner [try] of [sync]. *)
Definition sync_fetch (metadata : option StatsMetadata) (fetchFrom : Date) : Task unit :=
  freshHabits <- await ApiFetchHabits ;;
  let currentUserId := currentUserIdOf freshHabits in
  c <- read cache ;;
  (match c with
   | Some _ => if mustClear metadata freshHabits then await CacheClearAll else Ret tt
   | None => Ret tt
   end) ;;
  assign (with_habits freshHabits) ;;
  fresh <- await (ApiFetchCompletions fetchFrom) ;;
  assign (with_completions fresh) ;;
  c <- read cache ;;
  (match c with
   | Some _ =>
       hs <- read habits ;;
       await (CacheSetHabits hs) ;;
       cs <- read completions ;;
       await (CacheAddCompletions cs) ;;
       t1 <- now ;;
       t2 <- now ;;
       await (CacheSetMetadata
                {| lastHabitsSync := Some t1; lastCompletionsSync := Some t2;
                   version := 1; meta_userId := currentUserId |})
   | None => Ret tt
   end) ;;
  update (offlineSet false).

(** [metadata?.lastHabitsSync && cachedUserId] *)
Definition ownershipKnown (metadata : option StatsMetadata) : bool :=
  cacheHasData metadata && truthy (userIdOf metadata).

(** Body of the inner [catch] of [sync]. *)
Definition sync_fallback (metadata : option StatsMetadata) (err : Error) : Task unit :=
  c <- read cache ;;
  match c with
  | Some _ =>
      if ownershipKnown metadata then
        cached <- await CacheGetHabits ;;
        assign (with_habits cached) ;;
        cached <- await CacheGetCompletions ;;
        assign (with_completions cached) ;;
        update (offlineSet true)
      else Throw err
  | None => Throw err
  end.

Definition sync : Task unit :=
  update syncStarted ;;
  try_catch
    (currentState <- getState ;;
     let heatmapRange := getHeatmapRange (scope currentState) (selectedDate currentState) in
     fetchFrom <- getFetchFromDate heatmapRange ;;
     c <- read cache ;;
     metadata <- (match c with
                  | Some _ => await CacheGetMetadata
                  | None => Ret None
                  end) ;;
     try_catch (sync_fetch metadata fetchFrom) (sync_fallback metadata) ;;
     computed <- computeStatistics (scope currentState) (selectedDate currentState) ;;
     (match computed with
      | Some c => saveToServerCache (scope currentState) (selectedDate currentState) c
      | None => Ret tt
      end) ;;
     finishedAt <- now ;;
     update (syncFinished finishedAt))
    (fun _ => update syncFailed).

Definition setScope (sc : Scope) : Task unit :=
  update (scopeChosen sc) ;;
  currentState <- getState ;;
  computeStatistics sc (selectedDate currentState) ;;
  Ret tt.

Definition setSelectedDate (date : Date) : Task unit :=
  update (dateChosen date) ;;
  currentState <- getState ;;
  computeStatistics (scope currentState) date ;;
  Ret tt.

Definition refresh : Task unit := sync.

Definition clearCache : Task unit :=
  c <- read cache ;;
  (match c with
   | Some _ => await CacheClearAll
   | None => Ret tt
   end) ;;
  assign (with_habits []) ;;
  assign (with_completions []) ;;
  sync.

(** ** Running a task against the outside world *)

Section World.

Variable W : Type.
Variable handle : forall X : Type, Call X -> W -> Result X * W.
Variable clock : W -> Date * W.

Record Run (R : Type) : Type := {
  trace : list Event;
  final : Presenter;
  world : W;
  outcome : Outcome R
}.
Arguments trace {R} r.
Arguments final {R} r.
Arguments world {R} r.
Arguments outcome {R} r.

Definition logged {R : Type} (e : Event) (r : Run R) : Run R :=
  {| trace := e :: trace r; final := final r; world := world r; outcome := outcome r |}.

(** A rejection nobody handles is reported by the runtime. *)
Definition settle {X : Type} (c : Call X) (catches : bool) (r : Result X) : list Event :=
  match r with
  | Ok _ => [log c r]
  | Err e => if catches then [log c r] else [log c r; EUnhandledRejection e]
  end.

(** Run a task to completion, each awaited call being answered before the
    task goes on. *)
Fixpoint run {R : Type} (t : Task R) (p : Presenter) (w : W) : Run R :=
  match t with
  | Ret r => {| trace := []; final := p; world := w; outcome := Returned r |}
  | Throw e => {| trace := []; final := p; world := w; outcome := Threw e |}
  | Step f k => let (a, p') := f p in run (k a) p' w
  | Now k => let (d, w') := clock w in logged (ENow d) (run (k d) p w')
  | Await c k => let (r, w') := handle _ c w in logged (log c r) (run (k r) p w')
  | Fire c catches k =>
      let (r, w') := handle _ c w in
      let rest := run k p w' in
      {| trace := settle c catches r ++ trace rest; final := final rest;
         world := world rest; outcome := outcome rest |}
  end.

(** *** Suspension at an await

    A call of an async function runs synchronously up to its first [await];
    the caller goes on while the promise is pending.  [advance] runs a task
    up to its next await, [resume] settles the pending call and runs on to
    the following one. *)

Inductive Susp (R : Type) : Type :=
| Finished (o : Outcome R)
| Pending {X : Type} (c : Call X) (k : Result X -> Task R).
Arguments Finished {R} o.
Arguments Pending {R X} c k.

Definition awaited {R : Type} (s : Susp R) : option Op :=
  match s with
  | Finished _ => None
  | Pending c _ => Some (call_op c)
  end.

Record Advance (R : Type) : Type := {
  a_trace : list Event;
  a_final : Presenter;
  a_world : W;
  a_susp : Susp R
}.
Arguments a_trace {R} a.
Arguments a_final {R} a.
Arguments a_world {R} a.
Arguments a_susp {R} a.

Definition noted {R : Type} (es : list Event) (a : Advance R) : Advance R :=
  {| a_trace := es ++ a_trace a; a_final := a_final a;
     a_world := a_world a; a_susp := a_susp a |}.

Fixpoint advance {R : Type} (t : Task R) (p : Presenter) (w : W) : Advance R :=
  match t with
  | Ret r => {| a_trace := []; a_final := p; a_world := w; a_susp := Finished (Returned r) |}
  | Throw e => {| a_trace := []; a_final := p; a_world := w; a_susp := Finished (Threw e) |}
  | Step f k => let (a, p') := f p in advance (k a) p' w
  | Now k => let (d, w') := clock w in noted [ENow d] (advance (k d) p w')
  | Await c k => {| a_trace := []; a_final := p; a_world := w; a_susp := Pending c k |}
  | Fire c catches k =>
      let (r, w') := handle _ c w in noted (settle c catches r) (advance k p w')
  end.

Definition resume {R : Type} (s : Susp R) (p : Presenter) (w : W) : Advance R :=
  match s with
  | Finished o => {| a_trace := []; a_final := p; a_world := w; a_susp := Finished o |}
  | Pending c k =>
      let (r, w') := handle _ c w in noted [log c r] (advance (k r) p w')
  end.

(** Two calls of an async function made back to back, the first not awaited;
    afterwards the pending promises settle in the order of [sched]. *)
Inductive Turn : Type := First | Second.

Record Both : Type := {
  b_trace : list Event;
  b_final : Presenter;
  b_world : W;
  b_first : Susp unit;
  b_second : Susp unit
}.

Fixpoint interleave (sched : list Turn) (s1 s2 : Susp unit) (p : Presenter) (w : W) : Both :=
  match sched with
  | [] => {| b_trace := []; b_final := p; b_world := w; b_first := s1; b_second := s2 |}
  | First :: sched' =>
      let a := resume s1 p w in
      let b := interleave sched' (a_susp a) s2 (a_final a) (a_world a) in
      {| b_trace := a_trace a ++ b_trace b; b_final := b_final b;
         b_world := b_world b; b_first := b_first b; b_second := b_second b |}
  | Second :: sched' =>
      let a := resume s2 p w in
      let b := interleave sched' s1 (a_susp a) (a_final a) (a_world a) in
      {| b_trace := a_trace a ++ b_trace b; b_final := b_final b;
         b_world := b_world b; b_first := b_first b; b_second := b_second b |}
  end.

Definition twice (t : Task unit) (sched : list Turn) (p : Presenter) (w : W) : Both :=
  let a1 := advance t p w in
  let a2 := advance t (a_final a1) (a_world a1) in
  let b := interleave sched (a_susp a1) (a_susp a2) (a_final a2) (a_world a2) in
  {| b_trace := a_trace a1 ++ a_trace a2 ++ b_trace b; b_final := b_final b;
     b_world := b_world b; b_first := b_first b; b_second := b_second b |}.

End World.

End Presenter.

Arguments Returned {R} r.
Arguments Threw {R} e.
Arguments Ret {T R} r.
Arguments Throw {T R} e.
Arguments Step {T R A} f k.
Arguments Now {T R} k.
Arguments Await {T R X} c k.
Arguments Fire {T R X} c catches k.
Arguments trace {T W R} r.
Arguments final {T W R} r.
Arguments world {T W R} r.
Arguments outcome {T W R} r.
Arguments a_trace {T W R} a.
Arguments a_final {T W R} a.
Arguments a_world {T W R} a.
Arguments a_susp {T W R} a.
Arguments Finished {T R} o.
Arguments Pending {T R X} c k.
Arguments b_trace {T W} b.
Arguments b_final {T W} b.
Arguments b_world {T W} b.
Arguments b_first {T W} b.
Arguments b_second {T W} b.
Arguments run {T W} handle clock {R} t p w.
Arguments advance {T W} handle clock {R} t p w.
Arguments resume {T W} handle clock {R} s p w.
Arguments interleave {T W} handle clock sched s1 s2 p w.
Arguments twice {T W} handle clock t sched p w.

(** ** Reading a trace, and the conditions in words *)

Section Observations.

Context {T : StatsTypes}.

(** The metadata a sync got from the Local Store; [null] when it read none. *)
Fixpoint metadataRead (tr : list Event) : option StatsMetadata :=
  match tr with
  | [] => None
  | EGetMetadata (Ok m) :: _ => m
  | _ :: tr' => metadataRead tr'
  end.

(** The clock reading that ends the trace. *)
Definition completionTime (tr : list Event) : option Date :=
  match rev tr with
  | ENow d :: _ => Some d
  | _ => None
  end.

(** The first call to [setServerCache], with the clock reading made just
    before it. *)
Fixpoint mirrored (tr : list Event) : option (Date * Event) :=
  match tr with
  | [] => None
  | e :: tr' =>
      match e, tr' with
      | ENow d, ESetServerCache sc k c v r :: _ => Some (d, ESetServerCache sc k c v r)
      | _, _ => mirrored tr'
      end
  end.

(** The clock reading made for the first [setServerCache] call and the
    validity stamp the call was given. *)
Definition mirrorStamp (tr : list Event) : option (Date * Date) :=
  match mirrored tr with
  | Some (d, ESetServerCache _ _ _ validUntil _) => Some (d, validUntil)
  | _ => None
  end.

(** The metadata records a prior habit sync. *)
Definition priorSync (m : option StatsMetadata) : Prop :=
  exists md t, m = Some md /\ lastHabitsSync md = Some t.

(** Two readings of "an identifier is present". *)
Definition nonEmpty (o : option string) : Prop :=
  exists s, o = Some s /\ s <> EmptyString.

Definition nonNull (o : option string) : Prop := o <> None.

(** The three conditions for clearing the cache as the specification words
    them; the third one looks at the length of the fetched list. *)
Definition clearConditionStated (present : option string -> Prop)
    (m : option StatsMetadata) (fetched : list Habit) : Prop :=
  (priorSync m /\ ~ present (userIdOf m))
  \/ (present (userIdOf m) /\ present (currentUserIdOf fetched)
      /\ userIdOf m <> currentUserIdOf fetched)
  \/ (fetched = [] /\ priorSync m).

(** The same with the third condition on the identifier derived from the
    fetched habits: it is missing when the list is empty or when its first
    habit has an empty [userId]. *)
Definition clearCondition (m : option StatsMetadata) (fetched : list Habit) : Prop :=
  (priorSync m /\ ~ nonEmpty (userIdOf m))
  \/ (nonEmpty (userIdOf m) /\ nonEmpty (currentUserIdOf fetched)
      /\ userIdOf m <> currentUserIdOf fetched)
  \/ (~ nonEmpty (currentUserIdOf fetched) /\ priorSync m).

(** The metadata carries a prior habit-sync timestamp and an owner. *)
Definition ownershipTagged (m : option StatsMetadata) : Prop :=
  priorSync m /\ nonEmpty (userIdOf m).

(** Some run of the task awaits the promise of [setServerCache]. *)
Fixpoint awaits_mirror {R : Type} (t : Task R) : Prop :=
  match t with
  | Ret _ | Throw _ => False
  | Step f k => exists a, awaits_mirror (k a)
  | Now k => exists d, awaits_mirror (k d)
  | Await c k => call_op c = OpSetServerCache \/ exists r, awaits_mirror (k r)
  | Fire _ _ k => awaits_mirror k
  end.

(** Two worlds that answer every call alike, except for the way the promise
    of [setServerCache] settles. *)
Definition differ_on_mirror_only {W : Type}
    (h h' : forall X : Type, Call X -> W -> Result X * W) : Prop :=
  (forall (X : Type) (c : Call X) (w : W),
      call_op c <> OpSetServerCache -> h' X c w = h X c w)
  /\ (forall (X : Type) (c : Call X) (w : W), snd (h' X c w) = snd (h X c w)).

(** The three ways the fallback of a sync can end, read off its trace [tr],
    the presenter [p] it started on and the presenter [q] it leaves: both
    store reads resolve and the cached lists are served offline; the read of
    the habits rejects; the read of the completions rejects, after the cached
    habits were taken over.  In the last two the sync ends with the error. *)
Definition fallbackServed (tr : list Event) (q : Presenter) : Prop :=
  exists hs cs,
    In (EGetHabits (Ok hs)) tr /\ In (EGetCompletions (Ok cs)) tr
    /\ habits q = hs /\ completions q = cs
    /\ isOffline (state q) = true
    /\ error (state q) = None.

Definition fallbackHabitsUnread (tr : list Event) (p q : Presenter) : Prop :=
  exists e,
    In (EGetHabits (Err e)) tr
    /\ invoked OpGetCompletions tr = false
    /\ habits q = habits p /\ completions q = completions p
    /\ isOffline (state q) = isOffline (state p)
    /\ error (state q) = Some SYNC_ERROR_MESSAGE
    /\ statsView (state q) = statsView (state p).

Definition fallbackCompletionsUnread (tr : list Event) (p q : Presenter) : Prop :=
  exists hs e,
    In (EGetHabits (Ok hs)) tr /\ In (EGetCompletions (Err e)) tr
    /\ habits q = hs /\ completions q = completions p
    /\ isOffline (state q) = isOffline (state p)
    /\ error (state q) = Some SYNC_ERROR_MESSAGE
    /\ statsView (state q) = statsView (state p).

(** A store read of the fallback rejects and the sync ends with the error. *)
Definition fallbackUnread (tr : list Event) (p q : Presenter) : Prop :=
  (exists e, In (EGetHabits (Err e)) tr \/ In (EGetCompletions (Err e)) tr)
  /\ isOffline (state q) = isOffline (state p)
  /\ error (state q) = Some SYNC_ERROR_MESSAGE
  /\ statsView (state q) = statsView (state p).

End Observations.

Section FreshPath.

Context {T : StatsTypes}.

(** A call that the inner [try] of [sync] awaits after [fetchHabits] was
    rejected. *)
Definition fresh_step_rejected (e : Event) : bool :=
  match e with
  | EClearAll (Err _) | EFetchCompletions _ (Err _) | ESetHabits _ (Err _)
  | EAddCompletions _ (Err _) | ESetMetadata _ (Err _) => true
  | _ => false
  end.

(** Some operation of the Local Store was invoked. *)
Definition store_touched (tr : list Event) : bool :=
  existsb (fun e =>
             match event_op e with
             | OpGetMetadata | OpSetMetadata | OpGetHabits | OpSetHabits
             | OpGetCompletions | OpAddCompletions | OpClearAll => true
             | _ => false
             end) tr.

End FreshPath.

(** ** A concrete store, gateway and clock

    [$lib/cache/statsCache], [$lib/api/statsApi] and [$lib/stats] are not part
    of the sources at hand.  The theorems below hold for every instance and
    every world; this module provides one of each, on which the presenter can
    be run. *)

Module Demo.

Record DemoHabit : Type := { h_id : string; h_owner : string }.
Record DemoCompletion : Type := { done_habit : string; done_on : Date }.

#[export] Instance demoTypes : StatsTypes := {|
  Habit := DemoHabit;
  userId := h_owner;
  HabitCompletion := DemoCompletion;
  number := Z;
  number_sub := Z.sub;
  BestDay := option Date;
  HabitTrend := string * Z;
  HeatCell := Date * Z;
  TrendPick := option string;
  Insights := Z;
  ActivityItem := string
|}.

Definition within (r : DateRange) (c : DemoCompletion) : bool :=
  (from r <=? done_on c) && (done_on c <=? to r).

Definition tally (cs : list DemoCompletion) : Z := Z.of_nat (List.length cs).

Definition lookback (sc : Scope) : Z :=
  match sc with
  | daily => 7 * MS_PER_DAY
  | weekly => 28 * MS_PER_DAY
  | monthly => 90 * MS_PER_DAY
  end.

Definition period (sc : Scope) : Z :=
  match sc with
  | daily => MS_PER_DAY
  | weekly => 7 * MS_PER_DAY
  | monthly => 30 * MS_PER_DAY
  end.

Definition label (sc : Scope) : string :=
  match sc with
  | daily => "daily"
  | weekly => "weekly"
  | monthly => "monthly"
  end.

(** A stand-in for the aggregation functions: counts instead of rates. *)
#[export] Instance demoLib : StatsLib := {|
  HISTORY_DAYS := 90;
  computeCompletionRate := fun _ cs r =>
    {| rate := tally (filter (within r) cs); completed := tally (filter (within r) cs) |};
  computeOverallStreak := fun _ cs _ =>
    {| currentStreak := 0; longestStreak := tally cs |};
  computeHeatmap := fun _ cs r _ => map (fun c => (done_on c, 1)) (filter (within r) cs);
  computeTrends := fun hs cs _ _ =>
    map (fun h => (h_id h, tally (filter (fun c => String.eqb (done_habit c) (h_id h)) cs))) hs;
  computeInsights := fun hs cs _ _ => tally cs - Z.of_nat (List.length hs);
  getHeatmapRange := fun sc d => {| from := d - lookback sc; to := d |};
  getPeriodRanges := fun sc d =>
    {| current := {| from := d - period sc; to := d |};
       previous := {| from := d - 2 * period sc; to := d - period sc |} |};
  findMostConsistent := fun ts => option_map fst (hd_error ts);
  findNeedsAttention := fun ts => option_map fst (hd_error (rev ts));
  findBestDayOfWeek := fun _ cs r => option_map done_on (hd_error (filter (within r) cs));
  findBestDate := fun _ cs r => option_map done_on (hd_error (filter (within r) cs));
  formatRangeLabel := fun sc _ => label sc;
  buildActivity := fun ts => map fst ts;
  getDateKey := fun sc _ => label sc
|}.

(** The host's zone: Europe/Stockholm from 2023 to 2025.  Summer time (two
    hours ahead of UTC) ends on 2023-10-29 and on 2024-10-27 and begins on
    2024-03-31, each time at 01:00 UTC; winter time is one hour ahead. *)
Definition summerEnds2023 : Date := 1698541200000.
Definition summerBegins2024 : Date := 1711846800000.
Definition summerEnds2024 : Date := 1729990800000.

(** The offset in force at a time value. *)
Definition offsetAt (t : Date) : Z :=
  if t <? summerEnds2023 then 2 * MS_PER_HOUR
  else if t <? summerBegins2024 then MS_PER_HOUR
  else if t <? summerEnds2024 then 2 * MS_PER_HOUR
  else MS_PER_HOUR.

(** The offset under which a wall-clock reading is read: a reading shown
    twice (02:00 to 03:00 when summer time ends) or skipped (02:00 to 03:00
    when it begins) takes the offset in force before the change. *)
Definition offsetOfReading (l : Z) : Z :=
  if l <? summerEnds2023 + 2 * MS_PER_HOUR then 2 * MS_PER_HOUR
  else if l <? summerBegins2024 + 2 * MS_PER_HOUR then MS_PER_HOUR
  else if l <? summerEnds2024 + 2 * MS_PER_HOUR then 2 * MS_PER_HOUR
  else MS_PER_HOUR.

#[export] Instance stockholm : TimeZone := {|
  LocalTime := fun t => t + offsetAt t;
  UTC := fun l => l - offsetOfReading l
|}.

(** Modelled from the spec: the Local Store ([StatsCache], section 4.1:
    habits, completions and sync metadata; [addCompletions] upserts by habit
    and date, [clearAll] wipes all three, any operation may fail with a
    storage error), the Remote Data Gateway ([StatsApi], section 4.2:
    [fetchCompletions(since)] returns the completions dated [since] or
    later) and a clock that ticks at every reading. *)
Record Env : Type := {
  store_habits : list DemoHabit;
  store_completions : list DemoCompletion;
  store_metadata : option StatsMetadata;
  store_available : bool;
  gateway_habits : Result (list DemoHabit);
  gateway_completions : Result (list DemoCompletion);
  gateway_cache : Result unit;
  wall : Date
}.

Definition same_key (a b : DemoCompletion) : bool :=
  String.eqb (done_habit a) (done_habit b) && (done_on a =? done_on b).

Definition upsert (c : DemoCompletion) (cs : list DemoCompletion) : list DemoCompletion :=
  filter (fun x => negb (same_key x c)) cs ++ [c].

Definition stored (hs : list DemoHabit) (cs : list DemoCompletion)
    (m : option StatsMetadata) (e : Env) : Env :=
  {| store_habits := hs; store_completions := cs; store_metadata := m;
     store_available := store_available e;
     gateway_habits := gateway_habits e; gateway_completions := gateway_completions e;
     gateway_cache := gateway_cache e; wall := wall e |}.

Definition STORAGE_UNAVAILABLE : Error := "StorageUnavailable"%string.

Definition store_op {X : Type} (e : Env) (ok : Result X * Env) : Result X * Env :=
  if store_available e then ok else (Err STORAGE_UNAVAILABLE, e).

Definition demo_handle (X : Type) (c : Call X) (e : Env) : Result X * Env :=
  match c in Call X return Result X * Env with
  | CacheGetMetadata => store_op e (Ok (store_metadata e), e)
  | CacheSetMetadata m =>
      store_op e (Ok tt, stored (store_habits e) (store_completions e) (Some m) e)
  | CacheGetHabits => store_op e (Ok (store_habits e), e)
  | CacheSetHabits hs =>
      store_op e (Ok tt, stored hs (store_completions e) (store_metadata e) e)
  | CacheGetCompletions => store_op e (Ok (store_completions e), e)
  | CacheAddCompletions cs =>
      store_op e (Ok tt, stored (store_habits e)
                           (fold_left (fun acc c => upsert c acc) cs (store_completions e))
                           (store_metadata e) e)
  | CacheClearAll => store_op e (Ok tt, stored [] [] None e)
  | ApiFetchHabits => (gateway_habits e, e)
  | ApiFetchCompletions since =>
      (match gateway_completions e with
       | Ok cs => Ok (filter (fun c => since <=? done_on c) cs)
       | Err err => Err err
       end, e)
  | ApiSetServerCache _ _ _ _ => (gateway_cache e, e)
  end.

Definition demo_clock (e : Env) : Date * Env :=
  (wall e,
   {| store_habits := store_habits e; store_completions := store_completions e;
      store_metadata := store_metadata e; store_available := store_available e;
      gateway_habits := gateway_habits e; gateway_completions := gateway_completions e;
      gateway_cache := gateway_cache e; wall := wall e + 1 |}).

(** The same world with the server-side cache endpoint down. *)
Definition demo_handle_mirror_down (X : Type) (c : Call X) (e : Env) : Result X * Env :=
  match c in Call X return Result X * Env with
  | ApiSetServerCache _ _ _ _ => (Err "ServerError"%string, e)
  | c' => demo_handle _ c' e
  end.

Definition NETWORK_DOWN : Error := "Unreachable"%string.

(** 2024-01-05T12:00:00Z *)
Definition noon : Date := 1704456000000.

Definition habitOf (id owner : string) : DemoHabit := {| h_id := id; h_owner := owner |}.
Definition doneOn (id : string) (d : Date) : DemoCompletion :=
  {| done_habit := id; done_on := d |}.

Definition metadataOf (owner : option string) : StatsMetadata :=
  {| lastHabitsSync := Some (noon - MS_PER_DAY);
     lastCompletionsSync := Some (noon - MS_PER_DAY);
     version := 1; meta_userId := owner |}.

(** A device whose store was last synced by [owner], and a gateway answering
    with [fetched]. *)
Definition device (owner : option StatsMetadata) (cachedHabits : list DemoHabit)
    (cachedCompletions : list DemoCompletion)
    (fetched : Result (list DemoHabit)) (fetchedCompletions : Result (list DemoCompletion))
    : Env :=
  {| store_habits := cachedHabits; store_completions := cachedCompletions;
     store_metadata := owner; store_available := true;
     gateway_habits := fetched; gateway_completions := fetchedCompletions;
     gateway_cache := Ok tt; wall := noon |}.

(** A presenter before and after [initialize] has opened the Local Store. *)
Definition unopened : Presenter := createStatisticsPresenter daily noon.
Definition opened : Presenter := with_cache (Some LocalStore) unopened.

Definition habitsA : list DemoHabit := [habitOf "run" "A"].
Definition completionsA : list DemoCompletion := [doneOn "run" (noon - MS_PER_DAY)].
Definition habitsB : list DemoHabit := [habitOf "read" "B"].
Definition completionsB : list DemoCompletion := [doneOn "read" (noon - 2 * MS_PER_DAY)].

(** A habit whose [userId] is the empty string. *)
Definition habitsOfNobody : list DemoHabit := [habitOf "walk" EmptyString].

(** A device last synced by A. *)
Definition deviceOfA : Result (list DemoHabit) -> Result (list DemoCompletion) -> Env :=
  device (Some (metadataOf (Some "A"%string))) habitsA completionsA.

(** The order in which the pending promises of two tasks settle: in turn. *)
Definition round_robin : list Turn :=
  [First; Second; First; Second; First; Second; First; Second;
   First; Second; First; Second; First; Second; First; Second].

End Demo.

(** * Settings presenter

    Shallow embedding of [createSettingsPresenter], the second presenter of
    the same source file, and of the user API it calls (src/lib/api/userApi.ts).

    - [setField] takes a value of type [unknown] and writes it under a
      computed key: the sixteen settings fields of the state hold JavaScript
      primitives ([Value]) and are read and written by field name.
    - [changes] is a JavaScript [Map]: an association list in insertion order
      without duplicate keys.
    - The global stores of [$lib/stores] are taken as plain writable stores.
    - The item kept in [Storage] is represented by what [JSON.parse] makes of
      it; the response the presenter caches came out of [res.json()], so that
      [JSON.parse(JSON.stringify(x))] gives it back.
    - Each async function awaits once: it is split at that await into the part
      that runs when it is called and the part that runs when the promise
      settles, so that other intents may run in between. *)

Module Settings.

Inductive Value : Type :=
| VString (s : string)
| VBool (b : bool)
| VNull.

(** [a === b] on primitives. *)
Definition strict_eq (a b : Value) : bool :=
  match a, b with
  | VString x, VString y => String.eqb x y
  | VBool x, VBool y => Bool.eqb x y
  | VNull, VNull => true
  | _, _ => false
  end.

Definition truthyValue (v : Value) : bool :=
  match v with
  | VString s => negb (String.eqb s EmptyString)
  | VBool b => b
  | VNull => false
  end.

(** [v || null] *)
Definition orNull (v : Value) : Value := if truthyValue v then v else VNull.

(** [v || undefined] *)
Definition orUndefined (v : Value) : option Value := if truthyValue v then Some v else None.

Inductive SettingsField : Type :=
| name | bio | pronouns | username | email | theme | reduceMotion | country
| accentColor | typography | pushEnabled | habitReminders | streakMilestones
| goalProgress | holidaySuggestions | reminderTime.

Definition SettingsField_eq_dec (a b : SettingsField) : {a = b} + {a <> b}.
Proof. decide equality. Defined.

Record SettingsState : Type := {
  fields : SettingsField -> Value;
  avatarUrl : option string;
  isLoading : bool;
  isSaving : bool;
  isUploadingAvatar : bool;
  error : option string
}.

Record FieldChange : Type := { original : Value; current : Value }.

Definition SETTINGS_CACHE_TTL_MS : Z := 5 * 60 * 1000.

Definition initialFields (f : SettingsField) : Value :=
  match f with
  | name | bio | pronouns | username | email => VString EmptyString
  | theme => VString "system"
  | reduceMotion => VBool false
  | country | accentColor | typography => VString EmptyString
  | pushEnabled => VBool false
  | habitReminders | streakMilestones | goalProgress | holidaySuggestions => VBool true
  | reminderTime => VString "08:00"
  end.

Definition initialState : SettingsState :=
  {| fields := initialFields; avatarUrl := None; isLoading := true;
     isSaving := false; isUploadingAvatar := false; error := None |}.

(** *** The payloads of the user API *)

Record NotificationPrefs : Type := {
  np_enabled : option bool;
  np_pushEnabled : option bool;
  np_habitReminders : option bool;
  np_reminderTime : option string;
  np_streakMilestones : option bool;
  np_goalProgress : option bool;
  np_holidaySuggestions : option bool
}.

Record UserPreferences : Type := {
  up_notifications : option bool;
  up_emailNotifications : option bool;
  up_weekStartsOn : option Z;
  up_bio : option string;
  up_accentColor : option string;
  up_typography : option string;
  up_notificationPrefs : option NotificationPrefs
}.

(** The response as it arrives: any property may be null or missing. *)
Record UserSettingsResponse : Type := {
  r_username : option string;
  r_name : option string;
  r_pronouns : option string;
  r_theme : option string;
  r_country : option string;
  r_preferences : option UserPreferences;
  r_imageUrl : option string
}.

(** The body of [PATCH /api/user/preferences] built by [saveAll]. *)
Record UserSettings : Type := {
  u_name : option Value;
  u_pronouns : option Value;
  u_username : option Value;
  u_theme : Value;
  u_country : option Value;
  u_bio : Value;
  u_accentColor : Value;
  u_typography : Value;
  u_pushEnabled : Value;
  u_habitReminders : Value;
  u_streakMilestones : Value;
  u_goalProgress : Value;
  u_holidaySuggestions : Value;
  u_reminderTime : Value
}.

Record AvatarUploadResponse : Type := {
  av_success : bool;
  av_imageUrl : string
}.

Record User : Type := { user_email : option string }.
Record Session : Type := { user : option User }.

(** What a [catch] clause receives: an [Error] with its message, or any other
    thrown value. *)
Inductive Thrown : Type :=
| ErrorObject (message : string)
| NotAnError.

Inductive Settled (X : Type) : Type :=
| Resolved (x : X)
| Rejected (t : Thrown).
Arguments Resolved {X} x.
Arguments Rejected {X} t.

(** [error instanceof Error ? error.message : fallback] *)
Definition messageOf (t : Thrown) (fallback : string) : string :=
  match t with
  | ErrorObject m => m
  | NotAnError => fallback
  end.

(** *** The user API *)

Record Response (B : Type) : Type := {
  ok : bool;
  status : Z;
  json : Settled B
}.
Arguments ok {B} r.
Arguments status {B} r.
Arguments json {B} r.

Definition getPreferences (fetched : Settled (Response UserSettingsResponse))
    : Settled UserSettingsResponse :=
  match fetched with
  | Rejected t => Rejected t
  | Resolved res =>
      if negb (ok res) then
        if status res =? 401 then Rejected (ErrorObject "Not authenticated")
        else Rejected (ErrorObject "Failed to get preferences")
      else json res
  end.

Definition updatePreferences (fetched : Settled (Response UserSettingsResponse))
    : Settled UserSettingsResponse :=
  match fetched with
  | Rejected t => Rejected t
  | Resolved res =>
      if negb (ok res) then
        if status res =? 401 then Rejected (ErrorObject "Not authenticated")
        else Rejected (ErrorObject "Failed to update preferences")
      else json res
  end.

(** The body of an upload response that is not ok, as [res.json()] gives it:
    any JSON value.  Reading [.message] off [null] throws a TypeError; off
    any other value it gives the property of that name: none, a string, or
    another value, of which the code uses the truthiness and, when truthy,
    the message [new Error] makes of it ([ToString], which throws a TypeError
    on an object left without a usable [toString] and [valueOf]). *)
Inductive MessageProperty : Type :=
| NoMessage
| StringMessage (s : string)
| OtherMessage (isTruthy : bool) (text : option string).

Inductive ErrorBody : Type :=
| NullBody
| BodyWith (message : MessageProperty).

(** The two TypeErrors of this path; their texts are the engine's. *)
Inductive TypeErrorSite : Type :=
| ReadOfNull
| NoPrimitiveValue.

(** What [fetcher] resolves to on an upload: a response that is ok, with
    what [res.json()] settles to, or one that is not. *)
Inductive UploadResponse : Type :=
| UploadOk (body : Settled AvatarUploadResponse)
| UploadNotOk (status : Z) (body : Settled ErrorBody).

(** The message of the error thrown for a response that is not ok:
    [new Error(errorData.message || 'Upload failed')], where a body that does
    not parse counts as [{}]. *)
Definition uploadErrorMessage (typeErrorText : TypeErrorSite -> string)
    (body : Settled ErrorBody) : string :=
  match body with
  | Rejected _ => "Upload failed"%string
  | Resolved NullBody => typeErrorText ReadOfNull
  | Resolved (BodyWith NoMessage) => "Upload failed"%string
  | Resolved (BodyWith (StringMessage m)) =>
      if String.eqb m EmptyString then "Upload failed"%string else m
  | Resolved (BodyWith (OtherMessage false _)) => "Upload failed"%string
  | Resolved (BodyWith (OtherMessage true (Some text))) => text
  | Resolved (BodyWith (OtherMessage true None)) => typeErrorText NoPrimitiveValue
  end.

Definition apiUploadAvatar (typeErrorText : TypeErrorSite -> string)
    (fetched : Settled UploadResponse) : Settled AvatarUploadResponse :=
  match fetched with
  | Rejected t => Rejected t
  | Resolved (UploadNotOk _ body) =>
      Rejected (ErrorObject (uploadErrorMessage typeErrorText body))
  | Resolved (UploadOk body) => body
  end.

(** *** The presenter *)

(** The global stores the presenter writes to. *)
Record Stores : Type := {
  themeStore : Value;
  motionStore : Value;
  avatarStore : option string;
  userCountry : Value
}.

(** The parsed item under [STORAGE_KEYS.SETTINGS_CACHE]. *)
Inductive Stored : Type :=
| Unparseable
| Entry (savedAt : Z) (data : UserSettingsResponse).

Record Presenter : Type := {
  browser : bool;
  storage : option (option Stored);
  state : SettingsState;
  changes : list (SettingsField * FieldChange);
  stores : Stores
}.

Definition createSettingsPresenter (isBrowser : bool) (st : option (option Stored))
    (globals : Stores) : Presenter :=
  {| browser := isBrowser; storage := st; state := initialState;
     changes := []; stores := globals |}.

(** [Map.get], [Map.delete], [Map.set] *)
Fixpoint map_get (f : SettingsField) (m : list (SettingsField * FieldChange))
    : option FieldChange :=
  match m with
  | [] => None
  | (g, c) :: m' => if SettingsField_eq_dec g f then Some c else map_get f m'
  end.

Fixpoint map_delete (f : SettingsField) (m : list (SettingsField * FieldChange))
    : list (SettingsField * FieldChange) :=
  match m with
  | [] => []
  | (g, c) :: m' =>
      if SettingsField_eq_dec g f then map_delete f m' else (g, c) :: map_delete f m'
  end.

Fixpoint map_set (f : SettingsField) (c : FieldChange)
    (m : list (SettingsField * FieldChange)) : list (SettingsField * FieldChange) :=
  match m with
  | [] => [(f, c)]
  | (g, d) :: m' =>
      if SettingsField_eq_dec g f then (g, c) :: m' else (g, d) :: map_set f c m'
  end.

(** The derived stores. *)
Definition hasUnsavedChanges (p : Presenter) : bool :=
  negb (Nat.eqb (List.length (changes p)) 0).

Definition changedFields (p : Presenter) : list SettingsField := map fst (changes p).

(** [{ ...s, [field]: value }] *)
Definition withField (f : SettingsField) (v : Value) (s : SettingsState) : SettingsState :=
  {| fields := fun g => if SettingsField_eq_dec g f then v else fields s g;
     avatarUrl := avatarUrl s; isLoading := isLoading s; isSaving := isSaving s;
     isUploadingAvatar := isUploadingAvatar s; error := error s |}.

Definition withFields (fs : SettingsField -> Value) (s : SettingsState) : SettingsState :=
  {| fields := fs; avatarUrl := avatarUrl s; isLoading := isLoading s;
     isSaving := isSaving s; isUploadingAvatar := isUploadingAvatar s; error := error s |}.

Definition withAvatarUrl (a : option string) (s : SettingsState) : SettingsState :=
  {| fields := fields s; avatarUrl := a; isLoading := isLoading s;
     isSaving := isSaving s; isUploadingAvatar := isUploadingAvatar s; error := error s |}.

Definition withIsLoading (b : bool) (s : SettingsState) : SettingsState :=
  {| fields := fields s; avatarUrl := avatarUrl s; isLoading := b;
     isSaving := isSaving s; isUploadingAvatar := isUploadingAvatar s; error := error s |}.

Definition withIsSaving (b : bool) (s : SettingsState) : SettingsState :=
  {| fields := fields s; avatarUrl := avatarUrl s; isLoading := isLoading s;
     isSaving := b; isUploadingAvatar := isUploadingAvatar s; error := error s |}.

Definition withIsUploadingAvatar (b : bool) (s : SettingsState) : SettingsState :=
  {| fields := fields s; avatarUrl := avatarUrl s; isLoading := isLoading s;
     isSaving := isSaving s; isUploadingAvatar := b; error := error s |}.

Definition withError (e : option string) (s : SettingsState) : SettingsState :=
  {| fields := fields s; avatarUrl := avatarUrl s; isLoading := isLoading s;
     isSaving := isSaving s; isUploadingAvatar := isUploadingAvatar s; error := e |}.

Definition update (f : SettingsState -> SettingsState) (p : Presenter) : Presenter :=
  {| browser := browser p; storage := storage p; state := f (state p);
     changes := changes p; stores := stores p |}.

Definition setChanges (m : list (SettingsField * FieldChange)) (p : Presenter) : Presenter :=
  {| browser := browser p; storage := storage p; state := state p;
     changes := m; stores := stores p |}.

Definition setStores (g : Stores) (p : Presenter) : Presenter :=
  {| browser := browser p; storage := storage p; state := state p;
     changes := changes p; stores := g |}.

Definition setStorage (st : option (option Stored)) (p : Presenter) : Presenter :=
  {| browser := browser p; storage := st; state := state p;
     changes := changes p; stores := stores p |}.

Definition withThemeStore (v : Value) (g : Stores) : Stores :=
  {| themeStore := v; motionStore := motionStore g;
     avatarStore := avatarStore g; userCountry := userCountry g |}.

Definition withMotionStore (v : Value) (g : Stores) : Stores :=
  {| themeStore := themeStore g; motionStore := v;
     avatarStore := avatarStore g; userCountry := userCountry g |}.

Definition withAvatarStore (a : option string) (g : Stores) : Stores :=
  {| themeStore := themeStore g; motionStore := motionStore g;
     avatarStore := a; userCountry := userCountry g |}.

Definition withUserCountry (v : Value) (g : Stores) : Stores :=
  {| themeStore := themeStore g; motionStore := motionStore g;
     avatarStore := avatarStore g; userCountry := v |}.

(** **** Cache operations *)

Definition readCache (now : Z) (p : Presenter) : option UserSettingsResponse :=
  if negb (browser p) then None
  else
    match storage p with
    | None => None
    | Some None => None
    | Some (Some Unparseable) => None
    | Some (Some (Entry savedAt data)) =>
        if now - savedAt >? SETTINGS_CACHE_TTL_MS then None else Some data
    end.

Definition writeCache (now : Z) (settings : UserSettingsResponse) (p : Presenter) : Presenter :=
  if negb (browser p) then p
  else
    match storage p with
    | None => p
    | Some _ => setStorage (Some (Some (Entry now settings))) p
    end.

Definition clearCache (p : Presenter) : Presenter :=
  if negb (browser p) then p
  else
    match storage p with
    | None => p
    | Some _ => setStorage (Some None) p
    end.

(** **** applySettings *)

(** [x ?? d] on strings and booleans, [x || d] on strings. *)
Definition stringOr (x : option string) (d : string) : Value :=
  match x with
  | Some s => VString s
  | None => VString d
  end.

Definition boolOr (x : option bool) (d : bool) : Value :=
  match x with
  | Some b => VBool b
  | None => VBool d
  end.

Definition stringOrIfFalsy (x : option string) (d : string) : Value :=
  match x with
  | Some s => if String.eqb s EmptyString then VString d else VString s
  | None => VString d
  end.

Definition stringOrNull (x : option string) : Value :=
  match x with
  | Some s => VString s
  | None => VNull
  end.

Definition bind_option {A B : Type} (x : option A) (f : A -> option B) : option B :=
  match x with
  | Some a => f a
  | None => None
  end.

Definition appliedFields (settings : UserSettingsResponse) (mail : option Value)
    (s : SettingsState) (f : SettingsField) : Value :=
  let prefs := r_preferences settings in
  let notifPrefs := bind_option prefs up_notificationPrefs in
  match f with
  | name => stringOr (r_name settings) EmptyString
  | pronouns => stringOr (r_pronouns settings) EmptyString
  | username => stringOr (r_username settings) EmptyString
  | theme => stringOrIfFalsy (r_theme settings) "system"
  | country => stringOr (r_country settings) EmptyString
  | bio => stringOr (bind_option prefs up_bio) EmptyString
  | accentColor => stringOr (bind_option prefs up_accentColor) EmptyString
  | typography => stringOr (bind_option prefs up_typography) EmptyString
  | pushEnabled => boolOr (bind_option notifPrefs np_pushEnabled) false
  | habitReminders => boolOr (bind_option notifPrefs np_habitReminders) true
  | streakMilestones => boolOr (bind_option notifPrefs np_streakMilestones) true
  | goalProgress => boolOr (bind_option notifPrefs np_goalProgress) true
  | holidaySuggestions => boolOr (bind_option notifPrefs np_holidaySuggestions) true
  | reminderTime => stringOr (bind_option notifPrefs np_reminderTime) "08:00"
  | email =>
      match mail with
      | Some VNull | None => fields s email
      | Some v => v
      end
  | reduceMotion => fields s reduceMotion
  end.

Definition applySettings (settings : UserSettingsResponse) (mail : option Value)
    (p : Presenter) : Presenter :=
  let p1 :=
    update (fun s => withAvatarUrl (r_imageUrl settings)
                       (withFields (appliedFields settings mail s) s)) p in
  setStores
    (withUserCountry (stringOrNull (r_country settings))
       (withThemeStore (stringOrIfFalsy (r_theme settings) "system")
          (withAvatarStore (r_imageUrl settings) (stores p1))))
    p1.

Definition initFromCache (now : Z) (p : Presenter) : bool * Presenter :=
  match readCache now p with
  | Some cached => (true, update (withIsLoading false) (applySettings cached None p))
  | None => (false, p)
  end.

(** **** loadSettings *)

Definition sessionEmail (session : option Session) : option Value :=
  option_map VString (bind_option (bind_option session user) user_email).

(** The continuation of [loadSettings] once [Promise.all] has settled. *)
Definition loadSettings_settled (now : Z)
    (reply : Settled (option Session * UserSettingsResponse)) (p : Presenter)
    : Settled unit * Presenter :=
  match reply with
  | Resolved (session, settings) =>
      let p1 := applySettings settings (sessionEmail session) p in
      let p2 := writeCache now settings p1 in
      let p3 := setChanges [] p2 in
      let p4 := update (withField reduceMotion (motionStore (stores p3))) p3 in
      (Resolved tt, update (withIsLoading false) p4)
  | Rejected t =>
      let p1 := update (withError (Some (messageOf t "Failed to load settings"))) p in
      (Rejected t, update (withIsLoading false) p1)
  end.

(** **** setField, discardAll *)

Definition syncStore (f : SettingsField) (v : Value) (g : Stores) : Stores :=
  match f with
  | theme => withThemeStore v g
  | reduceMotion => withMotionStore v g
  | country => withUserCountry (orNull v) g
  | _ => g
  end.

Definition setField (f : SettingsField) (v : Value) (p : Presenter) : Presenter :=
  let currentState := state p in
  let currentChanges := changes p in
  let existing := map_get f currentChanges in
  let orig :=
    match existing with
    | Some c => original c
    | None => fields currentState f
    end in
  let p1 := update (withField f v) p in
  let tracked :=
    if strict_eq orig v then map_delete f currentChanges
    else map_set f {| original := orig; current := v |} currentChanges in
  let p2 := setChanges tracked p1 in
  setStores (syncStore f v (stores p2)) p2.

Definition discardOne (p : Presenter) (entry : SettingsField * FieldChange) : Presenter :=
  let (f, change) := entry in
  let p1 := update (withField f (original change)) p in
  setStores (syncStore f (original change) (stores p1)) p1.

Definition discardAll (p : Presenter) : Presenter :=
  setChanges [] (fold_left discardOne (changes p) p).

(** **** saveAll *)

Record SaveResult : Type := { success : bool; failure : option string }.

(** [saveAll] up to its await: the flags, and the request it sends. *)
Definition saveAll_called (p : Presenter) : UserSettings * Presenter :=
  let p1 := update (fun s => withError None (withIsSaving true s)) p in
  let currentState := state p1 in
  let get := fields currentState in
  ({| u_name := orUndefined (get name);
      u_pronouns := orUndefined (get pronouns);
      u_username := orUndefined (get username);
      u_theme := get theme;
      u_country := orUndefined (get country);
      u_bio := get bio;
      u_accentColor := get accentColor;
      u_typography := get typography;
      u_pushEnabled := get pushEnabled;
      u_habitReminders := get habitReminders;
      u_streakMilestones := get streakMilestones;
      u_goalProgress := get goalProgress;
      u_holidaySuggestions := get holidaySuggestions;
      u_reminderTime := get reminderTime |},
   p1).

(** The continuation of [saveAll] once [updatePreferences] has settled;
    [mail] is the email captured before the await. *)
Definition saveAll_settled (now : Z) (mail : Value)
    (reply : Settled UserSettingsResponse) (p : Presenter) : SaveResult * Presenter :=
  match reply with
  | Resolved updated =>
      let p1 := applySettings updated (Some mail) p in
      let p2 := writeCache now updated p1 in
      let p3 := setChanges [] p2 in
      ({| success := true; failure := None |}, update (withIsSaving false) p3)
  | Rejected t =>
      let message := messageOf t "Failed to save settings" in
      let p1 := update (withError (Some message)) p in
      ({| success := false; failure := Some message |}, update (withIsSaving false) p1)
  end.

(** [saveAll] with nothing else happening during the await. *)
Definition saveAll (now : Z) (reply : Settled UserSettingsResponse) (p : Presenter)
    : SaveResult * Presenter :=
  let (_, p1) := saveAll_called p in
  saveAll_settled now (fields (state p1) email) reply p1.

(** **** uploadAvatar, reset *)

Record UploadResult : Type := {
  uploaded : bool;
  uploadedUrl : option string;
  uploadFailure : option string
}.

Definition uploadAvatar_called (p : Presenter) : Presenter :=
  update (fun s => withError None (withIsUploadingAvatar true s)) p.

Definition uploadAvatar_settled (reply : Settled AvatarUploadResponse) (p : Presenter)
    : UploadResult * Presenter :=
  match reply with
  | Resolved result =>
      let p1 := update (withAvatarUrl (Some (av_imageUrl result))) p in
      let p2 := setStores (withAvatarStore (Some (av_imageUrl result)) (stores p1)) p1 in
      let p3 := clearCache p2 in
      ({| uploaded := true; uploadedUrl := Some (av_imageUrl result); uploadFailure := None |},
       update (withIsUploadingAvatar false) p3)
  | Rejected t =>
      let message := messageOf t "Could not upload avatar" in
      let p1 := update (withError (Some message)) p in
      ({| uploaded := false; uploadedUrl := None; uploadFailure := Some message |},
       update (withIsUploadingAvatar false) p1)
  end.

Definition uploadAvatar (reply : Settled AvatarUploadResponse) (p : Presenter)
    : UploadResult * Presenter :=
  uploadAvatar_settled reply (uploadAvatar_called p).

Definition reset (p : Presenter) : Presenter :=
  setChanges [] (update (fun _ => initialState) p).

(** **** Sequences of edits, and what the change tracking promises *)

Definition setFields (edits : list (SettingsField * Value)) (p : Presenter) : Presenter :=
  fold_left (fun q e => setField (fst e) (snd e) q) edits p.

(** [changes] tracks the fields of the state against [base]: no key twice;
    a tracked field has [base]'s value as its original and the state's value
    as its current one, and they differ; an untracked field has [base]'s
    value. *)
Definition Tracks (base : SettingsField -> Value) (p : Presenter) : Prop :=
  NoDup (map fst (changes p))
  /\ forall f,
      match map_get f (changes p) with
      | Some c =>
          original c = base f /\ current c = fields (state p) f
          /\ strict_eq (base f) (fields (state p) f) = false
      | None => fields (state p) f = base f
      end.

(** The theme, motion and country stores show the state's values. *)
Definition StoresFollow (p : Presenter) : Prop :=
  themeStore (stores p) = fields (state p) theme
  /\ motionStore (stores p) = fields (state p) reduceMotion
  /\ userCountry (stores p) = orNull (fields (state p) country).

(** A response none of whose properties is set. *)
Definition emptyResponse : UserSettingsResponse :=
  {| r_username := None; r_name := None; r_pronouns := None; r_theme := None;
     r_country := None; r_preferences := None; r_imageUrl := None |}.

(** **** Values to run the presenter on *)

Definition sampleStores : Stores :=
  {| themeStore := VString "system"; motionStore := VBool false;
     avatarStore := None; userCountry := VNull |}.

Definition sampleResponse : UserSettingsResponse :=
  {| r_username := Some "ada"%string; r_name := Some "Ada"%string; r_pronouns := None;
     r_theme := Some "dark"%string; r_country := Some "SE"%string;
     r_preferences :=
       Some {| up_notifications := None; up_emailNotifications := None;
               up_weekStartsOn := Some 1; up_bio := Some "Countess"%string;
               up_accentColor := None; up_typography := None;
               up_notificationPrefs :=
                 Some {| np_enabled := None; np_pushEnabled := Some true;
                         np_habitReminders := Some false; np_reminderTime := None;
                         np_streakMilestones := None; np_goalProgress := None;
                         np_holidaySuggestions := None |} |};
     r_imageUrl := Some "/avatars/ada.png"%string |}.

Definition samplePresenter : Presenter :=
  createSettingsPresenter true (Some None) sampleStores.

Definition sampleEdits : list (SettingsField * Value) :=
  [(name, VString "Ada"); (theme, VString "dark"); (pushEnabled, VBool true);
   (name, VString "Ada L."); (theme, VString "system"); (country, VString "SE")].

Definition unauthorized : Response UserSettingsResponse :=
  {| ok := false; status := 401; json := Rejected NotAnError |}.

Definition tooLarge : UploadResponse :=
  UploadNotOk 413 (Resolved (BodyWith (StringMessage "File too large"))).

(** A gateway answering 502 with the body [null]. *)
Definition badGateway : UploadResponse := UploadNotOk 502 (Resolved NullBody).

(** The texts of V8. *)
Definition v8Text (site : TypeErrorSite) : string :=
  match site with
  | ReadOfNull => "Cannot read properties of null (reading 'message')"
  | NoPrimitiveValue => "Cannot convert object to primitive value"
  end.

End Settings.

(** ** More devices to run the statistics presenter on *)

Module Scenarios.

Import Demo.

(** The device of A with its Local Store failing every operation. *)
Definition brokenStore : Env :=
  {| store_habits := habitsA; store_completions := completionsA;
     store_metadata := Some (metadataOf (Some "A"%string)); store_available := false;
     gateway_habits := Ok habitsA; gateway_completions := Ok completionsA;
     gateway_cache := Ok tt; wall := noon |}.

(** The same device with the gateway unreachable. *)
Definition unplugged (e : Env) : Env :=
  {| store_habits := store_habits e; store_completions := store_completions e;
     store_metadata := store_metadata e; store_available := store_available e;
     gateway_habits := Err NETWORK_DOWN; gateway_completions := Err NETWORK_DOWN;
     gateway_cache := Err NETWORK_DOWN; wall := wall e |}.

(** A device never synced, with A signed in. *)
Definition freshDeviceOfA : Env := device None [] [] (Ok habitsA) (Ok completionsA).

(** A world whose Local Store gives its metadata but fails to read the
    cached lists. *)
Definition demo_handle_unreadable (X : Type) (c : Call X) (e : Env) : Result X * Env :=
  match c in Call X return Result X * Env with
  | CacheGetHabits => (Err STORAGE_UNAVAILABLE, e)
  | CacheGetCompletions => (Err STORAGE_UNAVAILABLE, e)
  | c' => demo_handle _ c' e
  end.

(** The same device with its clock showing [t]. *)
Definition atClock (t : Date) (e : Env) : Env :=
  {| store_habits := store_habits e; store_completions := store_completions e;
     store_metadata := store_metadata e; store_available := store_available e;
     gateway_habits := gateway_habits e; gateway_completions := gateway_completions e;
     gateway_cache := gateway_cache e; wall := t |}.

(** 2024-10-27T00:30:00Z, 02:30 on the wall clock, half an hour before summer
    time ends. *)
Definition halfPastTwo : Date := 1729989000000.

End Scenarios.

(** * Properties *)

Section Properties.

Context {T : StatsTypes} {L : StatsLib} {TZ : TimeZone}.
Variable W : Type.
Variable handle : forall X : Type, Call X -> W -> Result X * W.
Variable clock : W -> Date * W.

Local Abbreviation exec := (run handle clock).

(** ** The conditions of the code and their wording *)

Lemma truthy_nonEmpty (o : option string) : truthy o = true <-> nonEmpty o.
Proof.
  unfold nonEmpty; destruct o as [s|]; cbn.
  - destruct (String.eqb_spec s EmptyString) as [->|Hne]; cbn; split.
    + discriminate.
    + intros (s' & [= <-] & H); now elim H.
    + intros _; now exists s.
    + reflexivity.
  - split; [discriminate | intros (s & [=] & _)].
Qed.

Lemma truthy_false_nonEmpty (o : option string) : truthy o = false <-> ~ nonEmpty o.
Proof.
  rewrite <- truthy_nonEmpty. destruct (truthy o); split; intros H; congruence.
Qed.

Lemma cacheHasData_priorSync (m : option StatsMetadata) :
  cacheHasData m = true <-> priorSync m.
Proof.
  unfold priorSync; destruct m as [md|]; cbn.
  - destruct (lastHabitsSync md) as [t|] eqn:E; split.
    + intros _; now exists md, t.
    + reflexivity.
    + discriminate.
    + intros (md' & t & [= <-] & H); congruence.
  - split; [discriminate | intros (md & t & [=] & _)].
Qed.

Lemma strict_neq_spec (a b : option string) : strict_neq a b = true <-> a <> b.
Proof.
  destruct a as [x|], b as [y|]; cbn; try (split; congruence).
  destruct (String.eqb_spec x y) as [->|Hne]; cbn; split; congruence.
Qed.

Lemma mustClear_clearCondition (m : option StatsMetadata) (fetched : list Habit) :
  mustClear m fetched = true <-> clearCondition m fetched.
Proof.
  unfold mustClear, clearCondition, cacheHasNoUserId, userIdMismatch, suspiciousCache.
  rewrite !orb_true_iff, !andb_true_iff, !negb_true_iff.
  rewrite !truthy_false_nonEmpty, !truthy_nonEmpty, cacheHasData_priorSync, strict_neq_spec.
  tauto.
Qed.

Lemma ownershipKnown_ownershipTagged (m : option StatsMetadata) :
  ownershipKnown m = true <-> ownershipTagged m.
Proof.
  unfold ownershipKnown, ownershipTagged.
  now rewrite andb_true_iff, truthy_nonEmpty, cacheHasData_priorSync.
Qed.

(** ** Symbolic execution of the presenter against an arbitrary world *)

Ltac world_step :=
  match goal with
  | |- context [clock ?w] =>
      is_var w; let d := fresh "d" in let w' := fresh "w" in
      destruct (clock w) as [d w'] eqn:?
  | |- context [handle ?X ?c ?w] =>
      is_var w; let r := fresh "r" in let w' := fresh "w" in
      destruct (handle X c w) as [[r|r] w'] eqn:?
  | |- context [match ?c with Some _ => _ | None => _ end] =>
      is_var c; destruct c
  | |- context [if mustClear ?m ?h then _ else _] =>
      destruct (mustClear m h) eqn:?
  | |- context [if ownershipKnown ?m then _ else _] =>
      destruct (ownershipKnown m) eqn:?
  | |- context [match ?hs with [] => _ | _ :: _ => _ end] =>
      is_var hs; destruct hs
  end.

Ltac unfold_presenter :=
  unfold refresh, sync, sync_fetch, sync_fallback, getFetchFromDate, saveToServerCache,
    setScope, setSelectedDate, computeStatistics, fire_and_forget, await, now,
    update, getState, read, assign.

Ltac sync_exec p :=
  destruct p as [? [[]|] ? ?]; unfold_presenter; cbn; repeat (world_step; cbn).

(** ** computeStatistics *)

Lemma computeStatistics_run (sc : Scope) (date : Date) (p : Presenter) (w : W) :
  exec (computeStatistics sc date) p w =
  match habits p with
  | [] => {| trace := []; final := with_state statsCleared p; world := w;
             outcome := Returned None |}
  | _ :: _ =>
      let c := reduceStatistics (habits p) (completions p) sc date in
      {| trace := []; final := with_state (statsApplied c) p; world := w;
         outcome := Returned (Some c) |}
  end.
Proof.
  destruct p as [s c hs cs]; destruct hs; reflexivity.
Qed.

(** C7: on an empty in-memory habit list [computeStatistics] returns null,
    does not throw, and publishes periodStats = null, trends = [],
    heatmap = [], snapshot = null, insights = null, activity = []. *)
Theorem computeStatistics_empty_habits (sc : Scope) (date : Date) (p : Presenter) (w : W) :
  habits p = [] ->
  let r := exec (computeStatistics sc date) p w in
  outcome r = Returned None
  /\ periodStats (state (final r)) = None
  /\ trends (state (final r)) = []
  /\ heatmap (state (final r)) = []
  /\ snapshot (state (final r)) = None
  /\ insights (state (final r)) = None
  /\ activity (state (final r)) = [].
Proof.
  intros Hempty r; subst r.
  rewrite computeStatistics_run, Hempty; cbn.
  repeat split.
Qed.

(** C8: the value returned by [computeStatistics] and the statistics it
    publishes depend on the habits, completions, scope and date only; the
    call leaves habits and completions as they are, and a second call on the
    result returns the same value and leaves the published state as the first
    call left it. *)
Theorem computeStatistics_deterministic (sc : Scope) (date : Date)
    (p p' : Presenter) (w w' : W) :
  habits p' = habits p ->
  completions p' = completions p ->
  let r := exec (computeStatistics sc date) p w in
  let r' := exec (computeStatistics sc date) p' w' in
  outcome r' = outcome r
  /\ statsView (state (final r')) = statsView (state (final r))
  /\ habits (final r) = habits p
  /\ completions (final r) = completions p
  /\ exec (computeStatistics sc date) (final r) (world r) = r.
Proof.
  intros Hh Hc r r'; subst r r'.
  rewrite !computeStatistics_run, Hh, Hc.
  destruct p as [s c hs cs]; destruct hs; cbn.
  - repeat split; rewrite computeStatistics_run; reflexivity.
  - repeat split; rewrite computeStatistics_run; reflexivity.
Qed.

(** ** setScope, setSelectedDate *)

(** C6: [setScope] and [setSelectedDate] call neither the gateway nor the
    Local Store (their trace is empty and the world is untouched), leave
    [habits], [completions] and [cache] as they are, and publish the
    statistics recomputed from the habits and completions in memory. *)
Theorem setScope_setSelectedDate_in_memory (sc : Scope) (date : Date)
    (p : Presenter) (w : W) :
  let recomputed (sc' : Scope) (date' : Date) : StatsView :=
    match habits p with
    | [] => emptyView
    | _ :: _ => viewOf (reduceStatistics (habits p) (completions p) sc' date')
    end in
  let r1 := exec (setScope sc) p w in
  let r2 := exec (setSelectedDate date) p w in
  (trace r1 = [] /\ world r1 = w /\ outcome r1 = Returned tt
   /\ habits (final r1) = habits p /\ completions (final r1) = completions p
   /\ cache (final r1) = cache p
   /\ scope (state (final r1)) = sc
   /\ statsView (state (final r1)) = recomputed sc (selectedDate (state p)))
  /\ (trace r2 = [] /\ world r2 = w /\ outcome r2 = Returned tt
      /\ habits (final r2) = habits p /\ completions (final r2) = completions p
      /\ cache (final r2) = cache p
      /\ selectedDate (state (final r2)) = date
      /\ statsView (state (final r2)) = recomputed (scope (state p)) date).
Proof.
  destruct p as [s c hs cs]; destruct hs; cbn; repeat split.
Qed.

(** ** sync: how it ends *)

Ltac split_events :=
  repeat match goal with
    | H : _ \/ _ |- _ => destruct H as [H|H]
    | H : False |- _ => destruct H
    | H : @eq Event _ _ |- _ => first [discriminate H | injection H as H; subst]
    end.

(** C4 (as amended): every sync returns with isSyncing = false.  When it ends
    without error (fresh fetch or offline fallback) lastSync is the clock
    reading that ends the sync; when it fails, the error is published and
    lastSync keeps the value it had. *)
Theorem sync_clears_isSyncing (p : Presenter) (w : W) :
  let r := exec sync p w in
  outcome r = Returned tt
  /\ isSyncing (state (final r)) = false
  /\ ((error (state (final r)) = None
       /\ lastSync (state (final r)) = completionTime (trace r)
       /\ lastSync (state (final r)) <> None)
      \/ (error (state (final r)) = Some SYNC_ERROR_MESSAGE
          /\ lastSync (state (final r)) = lastSync (state p))).
Proof.
  intros r; subst r.
  sync_exec p.
  all: repeat split.
  all: try (right; split; reflexivity).
  all: left; cbn; repeat split; discriminate.
Qed.

(** C5: a sync that ends with an error has published the fixed message and
    has left periodStats, trends, heatmap, snapshot, insights and activity as
    they were. *)
Theorem sync_failure_keeps_statistics (p : Presenter) (w : W) :
  let r := exec sync p w in
  error (state (final r)) <> None ->
  error (state (final r)) = Some SYNC_ERROR_MESSAGE
  /\ statsView (state (final r)) = statsView (state p)
  /\ isLoading (state (final r)) = false.
Proof.
  intros r; subst r.
  sync_exec p.
  all: intros Herr; try (now elim Herr).
  all: repeat split.
Qed.

(** ** sync: offline fallback *)

Ltac known_or_not :=
  repeat match goal with
    | H : ownershipKnown _ = true |- _ => apply ownershipKnown_ownershipTagged in H
    | H : ownershipKnown ?m = false |- _ =>
        assert (~ ownershipTagged m)
          by (rewrite <- ownershipKnown_ownershipTagged, H; discriminate);
        clear H
    end.

Lemma no_metadata_untagged : ~ ownershipTagged None.
Proof. intros [(md & t & [=] & _) _]. Qed.

Ltac in_trace := cbn; repeat (first [left; reflexivity | right]).

Ltac fallback_case :=
  first
    [ left; eexists _, _; repeat split; solve [reflexivity | in_trace]
    | right; left; eexists; repeat split; solve [reflexivity | in_trace]
    | right; right; eexists _, _; repeat split; solve [reflexivity | in_trace] ].


(** ** sync: the cache-trust check *)

Ltac clear_or_not :=
  repeat match goal with
    | H : mustClear _ _ = true |- _ => apply mustClear_clearCondition in H
    | H : mustClear ?m ?hs = false |- _ =>
        assert (~ clearCondition m hs)
          by (rewrite <- mustClear_clearCondition, H; discriminate);
        clear H
    end.

Lemma mismatch_clearCondition (m : option StatsMetadata) (fetched : list Habit)
    (a b : string) :
  userIdOf m = Some a -> currentUserIdOf fetched = Some b ->
  a <> EmptyString -> b <> EmptyString -> a <> b ->
  clearCondition m fetched.
Proof.
  intros Ha Hb Hae Hbe Hab. right; left. rewrite Ha, Hb.
  repeat split; [now exists a | now exists b | congruence].
Qed.

(** C1 (as amended): when a Local Store is open and [fetchHabits] resolves,
    [clearAll] is invoked, before any write to the store, if and only if the
    metadata records a prior habit sync but no owner, or the owner in the
    metadata and the owner derived from the fetched habits are both present
    and differ, or no owner can be derived from the fetched habits (the list
    is empty or its first habit has an empty userId) while the metadata
    records a prior habit sync; identifiers count as present when they are
    non-empty.  In particular a cache of user A is cleared before the data
    of user B is written. *)
Theorem sync_clears_untrusted_cache (p : Presenter) (w : W) (fetched : list Habit) :
  let r := exec sync p w in
  let m := metadataRead (trace r) in
  cache p = Some LocalStore ->
  In (EFetchHabits (Ok fetched)) (trace r) ->
  (invoked OpClearAll (trace r) = true <-> clearCondition m fetched)
  /\ (cleared_before_writing (trace r) = true <-> clearCondition m fetched)
  /\ (forall a b : string,
        userIdOf m = Some a -> currentUserIdOf fetched = Some b ->
        a <> EmptyString -> b <> EmptyString -> a <> b ->
        cleared_before_writing (trace r) = true).
Proof.
  intros r m; subst r m.
  sync_exec p.
  all: intros Hc Hin; try discriminate Hc; split_events.
  all: clear_or_not.
  all: repeat split; try (intros; assumption || reflexivity).
  all: try (intros Habs; first [discriminate Habs | contradiction]).
  all: intros a b Ha Hb Hae Hbe Hab;
    elim (H (mismatch_clearCondition _ _ a b Ha Hb Hae Hbe Hab)).
Qed.

(** ** sync: the owner written into the metadata *)

Lemma sync_metadata_written (p : Presenter) (w : W) (fetched : list Habit)
    (m : StatsMetadata) (res : Result unit) :
  let r := exec sync p w in
  In (EFetchHabits (Ok fetched)) (trace r) ->
  In (ESetMetadata m res) (trace r) ->
  meta_userId m = currentUserIdOf fetched /\ lastHabitsSync m <> None.
Proof.
  intros r; subst r.
  sync_exec p.
  all: intros Hf Hm; split_events.
  all: cbn; split; [reflexivity | discriminate].
Qed.

Lemma untagged_mustClear (m : StatsMetadata) (fetched : list Habit) :
  meta_userId m = None -> lastHabitsSync m <> None -> mustClear (Some m) fetched = true.
Proof.
  intros Hu Hs. unfold mustClear, cacheHasNoUserId; cbn. rewrite Hu; cbn.
  destruct (lastHabitsSync m); [reflexivity | now elim Hs].
Qed.

Lemma untagged_not_known (m : StatsMetadata) :
  meta_userId m = None -> ownershipKnown (Some m) = false.
Proof.
  intros Hu. unfold ownershipKnown; cbn. rewrite Hu; cbn. apply andb_false_r.
Qed.

Lemma sync_on_untagged_metadata (p : Presenter) (w : W) (m : StatsMetadata) :
  let r := exec sync p w in
  meta_userId m = None -> lastHabitsSync m <> None ->
  In (EGetMetadata (Ok (Some m))) (trace r) ->
  (forall e, In (EFetchHabits (Err e)) (trace r) ->
     error (state (final r)) = Some SYNC_ERROR_MESSAGE
     /\ invoked OpGetHabits (trace r) = false
     /\ invoked OpGetCompletions (trace r) = false
     /\ habits (final r) = habits p /\ completions (final r) = completions p)
  /\ (forall fetched, In (EFetchHabits (Ok fetched)) (trace r) ->
      cleared_before_writing (trace r) = true).
Proof.
  intros r Hu Hs; subst r.
  pose proof (untagged_not_known m Hu) as Hk.
  pose proof (fun hs => untagged_mustClear m hs Hu Hs) as Hc.
  sync_exec p.
  all: intros Hin; split_events.
  all: try congruence.
  all: split; intros; split_events; repeat split.
Qed.


(** ** sync: the mirror to the server-side cache *)

Lemma sync_mirror_sent (p : Presenter) (w : W) :
  let r := exec sync p w in
  let sc := scope (state p) in
  let date := selectedDate (state p) in
  (error (state (final r)) = None -> habits (final r) <> [] ->
   exists d res,
     mirrored (trace r)
     = Some (d, ESetServerCache sc (getDateKey sc date)
                  (reduceStatistics (habits (final r)) (completions (final r)) sc date)
                  (UTC (LocalTime d + 3600000)) res))
  /\ (forall d v, mirrorStamp (trace r) = Some (d, v) -> v = UTC (LocalTime d + 3600000))
  /\ (forall sc' k c v res, In (ESetServerCache sc' k c v res) (trace r) ->
      outcome r = Returned tt
      /\ error (state (final r)) = None
      /\ statsView (state (final r)) = viewOf c
      /\ lastSync (state (final r)) = completionTime (trace r))
  /\ invoked OpUnhandled (trace r) = false.
Proof.
  intros r sc date; subst r sc date.
  sync_exec p.
  all: repeat split.
  all: try (intros; split_events; reflexivity).
  all: try (intros d' v' Hst; cbn in Hst;
            first [discriminate Hst | injection Hst as <- <-; reflexivity]).
  all: try (intros He Hh; first [discriminate He | now elim Hh]).
  all: intros _ _; eexists _, _; reflexivity.
Qed.

Lemma run_mirror_irrelevant
    (handle' : forall X : Type, Call X -> W -> Result X * W)
    (Hd : differ_on_mirror_only handle handle') {R : Type} (t : Task R) :
  ~ awaits_mirror t ->
  forall (p : Presenter) (w : W),
    final (run handle' clock t p w) = final (exec t p w)
    /\ world (run handle' clock t p w) = world (exec t p w)
    /\ outcome (run handle' clock t p w) = outcome (exec t p w).
Proof.
  destruct Hd as [Hsame Hworld].
  induction t as [r|e|A f k IH|k IH|X c k IH|X c b k IH]; cbn; intros Hn p w.
  - auto.
  - auto.
  - destruct (f p) as [a p']. apply IH. intros Ha; apply Hn; now exists a.
  - destruct (clock w) as [d w']; cbn. apply IH. intros Ha; apply Hn; now exists d.
  - rewrite Hsame by (intros Hc; apply Hn; now left).
    destruct (handle X c w) as [r w']; cbn.
    apply IH. intros Ha; apply Hn; right; now exists r.
  - specialize (Hworld X c w).
    destruct (handle' X c w) as [r' w1], (handle X c w) as [r w2]; cbn in *; subst w1.
    now apply IH.
Qed.

Lemma sync_never_awaits_mirror : ~ awaits_mirror sync.
Proof.
  unfold_presenter; cbn; intros H.
  repeat match goal with
    | H : exists _, _ |- _ => destruct H as [? H]
    | H : _ \/ _ |- _ => destruct H as [H|H]
    | H : False |- _ => destruct H
    | H : _ = OpSetServerCache |- _ => discriminate H
    | H : context [match ?x with _ => _ end] |- _ => destruct x; cbn in H
    end.
Qed.


(** ** sync: no in-flight guard *)

Lemma run_resumes {R : Type} (t : Task R) (p : Presenter) (w : W) :
  exec t p w =
  let a := advance handle clock t p w in
  match a_susp a with
  | Finished o =>
      {| trace := a_trace a; final := a_final a; world := a_world a; outcome := o |}
  | Pending c k =>
      let (r, w') := handle _ c (a_world a) in
      let rest := exec (k r) (a_final a) w' in
      {| trace := a_trace a ++ log c r :: trace rest; final := final rest;
         world := world rest; outcome := outcome rest |}
  end.
Proof.
  revert p w.
  induction t as [r|e|A f k IH|k IH|X c k IH|X c b k IH]; cbn; intros p w.
  - reflexivity.
  - reflexivity.
  - destruct (f p) as [a p']. apply IH.
  - destruct (clock w) as [d w']. rewrite IH; cbn.
    destruct (a_susp (advance handle clock (k d) p w')) as [o|Y c' k']; cbn.
    + reflexivity.
    + now destruct (handle Y c' _) as [r w''].
  - now destruct (handle X c w) as [r w'].
  - destruct (handle X c w) as [r w']. rewrite IH; cbn.
    destruct (a_susp (advance handle clock k p w')) as [o|Y c' k']; cbn.
    + reflexivity.
    + destruct (handle Y c' _) as [r' w'']. now rewrite <- app_assoc.
Qed.

(** C3 (as amended): [sync] has no in-flight guard.  A [refresh] started
    while isSyncing is true behaves like any other: it publishes
    isSyncing = true and error = null and issues its first call, the metadata
    read when a Local Store is open and [fetchHabits] otherwise.  So two
    calls of [refresh], the first not awaited, leave two such calls pending
    at once. *)
Theorem refresh_has_no_inflight_guard (p : Presenter) (w : W) :
  let a1 := advance handle clock refresh p w in
  let a2 := advance handle clock refresh (a_final a1) (a_world a1) in
  let first_call :=
    match cache p with
    | Some _ => OpGetMetadata
    | None => OpFetchHabits
    end in
  isSyncing (state (a_final a1)) = true
  /\ awaited (a_susp a1) = Some first_call
  /\ awaited (a_susp a2) = Some first_call
  /\ isSyncing (state (a_final a2)) = true
  /\ error (state (a_final a2)) = None
  /\ ops (a_trace a1) = [OpClock]
  /\ ops (a_trace a2) = [OpClock].
Proof.
  destruct p as [s [[]|] hs cs]; unfold_presenter; cbn.
  all: destruct (clock w) as [d w1]; cbn.
  all: destruct (clock w1) as [d' w2]; cbn.
  all: repeat split.
Qed.

(** ** Further properties of sync, clearCache and the intents *)

(** X1: A sync that ends with an error has changed nothing in the published
    state but isLoading, isSyncing and error: scope, selectedDate, isOffline,
    lastSync and the statistics are as before, and so is the cache handle. *)
Theorem sync_failure_publishes_flags_only (p : Presenter) (w : W) :
  let r := exec sync p w in
  error (state (final r)) <> None ->
  state (final r) = syncFailed (state p) /\ cache (final r) = cache p.
Proof.
  intros r; subst r.
  sync_exec p.
  all: intros Herr; try (now elim Herr).
  all: split; reflexivity.
Qed.

(** X2: When the metadata read rejects, the sync ends with the error before any
    call to the gateway, and the in-memory data stay as they were. *)
Theorem sync_metadata_read_rejected (p : Presenter) (w : W) (e : Error) :
  let r := exec sync p w in
  In (EGetMetadata (Err e)) (trace r) ->
  invoked OpFetchHabits (trace r) = false
  /\ invoked OpFetchCompletions (trace r) = false
  /\ invoked OpSetServerCache (trace r) = false
  /\ error (state (final r)) = Some SYNC_ERROR_MESSAGE
  /\ habits (final r) = habits p /\ completions (final r) = completions p.
Proof.
  intros r; subst r.
  sync_exec p.
  all: intros Hin; split_events.
  all: repeat split.
Qed.



(** X5: A rejection of any later call of the fresh path (clearAll,
    fetchCompletions or a store write) is handled like a rejected
    fetchHabits.  With tagged metadata the cached habits and completions are
    read: when both reads resolve the cached lists replace the fetched ones,
    isOffline is published true and no error is published, and when a read
    rejects the sync ends with the error.  With other metadata the store is
    not read and the sync ends with the error, the published statistics
    unchanged. *)
Theorem sync_fresh_path_rejection_falls_back (p : Presenter) (w : W)
    (fetched : list Habit) :
  let r := exec sync p w in
  let m := metadataRead (trace r) in
  In (EFetchHabits (Ok fetched)) (trace r) ->
  existsb fresh_step_rejected (trace r) = true ->
  (ownershipTagged m ->
     invoked OpGetHabits (trace r) = true
     /\ (forall hs, In (EGetHabits (Ok hs)) (trace r) ->
         invoked OpGetCompletions (trace r) = true)
     /\ (fallbackServed (trace r) (final r) \/ fallbackUnread (trace r) p (final r)))
  /\ (~ ownershipTagged m ->
      invoked OpGetHabits (trace r) = false
      /\ invoked OpGetCompletions (trace r) = false
      /\ error (state (final r)) = Some SYNC_ERROR_MESSAGE
      /\ statsView (state (final r)) = statsView (state p)).
Proof.
  intros r m; subst r m.
  unfold fallbackServed, fallbackUnread.
  sync_exec p.
  all: intros Hin Hrej; try discriminate Hrej; split_events.
  all: known_or_not; try pose proof no_metadata_untagged.
  all: split; intros Hm; try contradiction.
  all: try (split; [reflexivity | split; [intros; split_events; reflexivity | ]];
            first
              [ left; eexists _, _; repeat split; solve [reflexivity | in_trace]
              | right; split; [eexists; solve [left; in_trace | right; in_trace]
                              | repeat split] ]).
  all: repeat split.
Qed.


(** X7: A sync that ends without error on an empty habit list blanks the
    published statistics and sends nothing to the server-side cache; the
    mirror is sent only for a non-empty habit list. *)
Theorem sync_empty_account_not_mirrored (p : Presenter) (w : W) :
  let r := exec sync p w in
  (habits (final r) = [] -> invoked OpSetServerCache (trace r) = false)
  /\ (error (state (final r)) = None -> habits (final r) = [] ->
      statsView (state (final r)) = emptyView
      /\ lastSync (state (final r)) = completionTime (trace r)).
Proof.
  intros r; subst r.
  sync_exec p.
  all: split; [intros Hh | intros He Hh]; try discriminate; repeat split.
Qed.

(** X8: sync never changes the published scope and selectedDate nor the cache
    handle. *)
Theorem sync_keeps_scope_and_date (p : Presenter) (w : W) :
  let r := exec sync p w in
  scope (state (final r)) = scope (state p)
  /\ selectedDate (state (final r)) = selectedDate (state p)
  /\ cache (final r) = cache p.
Proof.
  intros r; subst r.
  sync_exec p.
  all: repeat split.
Qed.

(** X9: Before a Local Store is opened a sync invokes no store operation, and a
    rejected fetchHabits always ends it with the error. *)
Theorem sync_without_store (p : Presenter) (w : W) :
  let r := exec sync p w in
  cache p = None ->
  store_touched (trace r) = false
  /\ (forall e, In (EFetchHabits (Err e)) (trace r) ->
      error (state (final r)) = Some SYNC_ERROR_MESSAGE
      /\ habits (final r) = habits p /\ completions (final r) = completions p).
Proof.
  intros r; subst r.
  sync_exec p.
  all: intros Hc; try discriminate Hc.
  all: split; [reflexivity | intros; split_events; repeat split].
Qed.

Ltac clearCache_exec p :=
  destruct p as [? [[]|] ? ?]; unfold clearCache; unfold_presenter; cbn;
  repeat (world_step; cbn).

(** X10: When [clearAll] rejects, [clearCache] rejects with the same error: the
    in-memory data and the published state are untouched and no sync is
    started. *)
Theorem clearCache_rejected (p : Presenter) (w : W) (e : Error) :
  let r := exec clearCache p w in
  hd_error (trace r) = Some (EClearAll (Err e)) ->
  outcome r = Threw e /\ final r = p /\ trace r = [EClearAll (Err e)].
Proof.
  intros r; subst r.
  destruct p as [s [[]|] hs cs]; unfold clearCache; unfold_presenter; cbn.
  - destruct (handle unit CacheClearAll w) as [[u|e'] w1] eqn:Hc; cbn.
    + intros [=].
    + intros [= ->]. repeat split.
  - destruct (clock w) as [d w1]; cbn. intros [=].
Qed.

(** X11: A [clearCache] whose re-sync cannot fetch and has no tagged metadata
    leaves the in-memory lists empty while the published statistics are still
    the old ones; the next [setScope] then publishes empty statistics. *)
Theorem clearCache_failed_resync (sc : Scope) (p : Presenter) (w w' : W) (e : Error) :
  let r := exec clearCache p w in
  In (EFetchHabits (Err e)) (trace r) ->
  ~ ownershipTagged (metadataRead (trace r)) ->
  habits (final r) = [] /\ completions (final r) = []
  /\ error (state (final r)) = Some SYNC_ERROR_MESSAGE
  /\ statsView (state (final r)) = statsView (state p)
  /\ statsView (state (final (exec (setScope sc) (final r) w'))) = emptyView.
Proof.
  intros r; subst r.
  clearCache_exec p.
  all: intros Hin Hm; split_events.
  all: known_or_not; try contradiction.
  all: repeat split.
Qed.

Lemma tagged_known (m : StatsMetadata) (u : string) :
  meta_userId m = Some u -> u <> EmptyString -> lastHabitsSync m <> None ->
  ownershipKnown (Some m) = true.
Proof.
  intros Hu Hne Hs. unfold ownershipKnown; cbn. rewrite Hu; cbn.
  destruct (lastHabitsSync m); [| now elim Hs].
  now destruct (String.eqb_spec u EmptyString) as [->|_]; [elim Hne |].
Qed.

Lemma same_owner_no_clear (m : StatsMetadata) (u : string) (fetched : list Habit) :
  meta_userId m = Some u -> u <> EmptyString -> lastHabitsSync m <> None ->
  currentUserIdOf fetched = Some u ->
  mustClear (Some m) fetched = false.
Proof.
  intros Hu Hne Hs Hf.
  unfold mustClear, cacheHasNoUserId, userIdMismatch, suspiciousCache.
  rewrite Hf; cbn. rewrite Hu; cbn.
  destruct (lastHabitsSync m); [| now elim Hs].
  destruct (String.eqb_spec u EmptyString) as [->|_]; [now elim Hne |].
  now rewrite String.eqb_refl.
Qed.

Lemma sync_on_tagged_metadata (p : Presenter) (w : W) (m : StatsMetadata) (u : string) :
  let r := exec sync p w in
  meta_userId m = Some u -> u <> EmptyString -> lastHabitsSync m <> None ->
  In (EGetMetadata (Ok (Some m))) (trace r) ->
  (forall fetched, In (EFetchHabits (Ok fetched)) (trace r) ->
     currentUserIdOf fetched = Some u -> invoked OpClearAll (trace r) = false)
  /\ (forall e, In (EFetchHabits (Err e)) (trace r) ->
      invoked OpGetHabits (trace r) = true).
Proof.
  intros r Hu Hne Hs; subst r.
  pose proof (tagged_known m u Hu Hne Hs) as Hk.
  pose proof (fun hs => same_owner_no_clear m u hs Hu Hne Hs) as Hsame.
  sync_exec p.
  all: intros Hin; split_events.
  all: split; intros; split_events; try reflexivity.
  all: try congruence.
  all: match goal with
       | H : currentUserIdOf _ = Some _ |- _ => specialize (Hsame _ H); congruence
       end.
Qed.

(** X12: Metadata stored by the sync of an account whose first habit carries a
    non-empty [userId] is accepted by a later sync that reads it: if that
    sync fetches habits of the same owner it does not invoke [clearAll], and
    if its [fetchHabits] rejects it reads the cached habits. *)
Theorem sync_same_owner_keeps_cache (p p' : Presenter) (w w' : W)
    (fetched : list Habit) (m : StatsMetadata) (u : string) :
  let r := exec sync p w in
  let r' := exec sync p' w' in
  In (EFetchHabits (Ok fetched)) (trace r) ->
  In (ESetMetadata m (Ok tt)) (trace r) ->
  currentUserIdOf fetched = Some u -> u <> EmptyString ->
  In (EGetMetadata (Ok (Some m))) (trace r') ->
  ownershipTagged (Some m)
  /\ (forall fetched', In (EFetchHabits (Ok fetched')) (trace r') ->
       currentUserIdOf fetched' = Some u -> invoked OpClearAll (trace r') = false)
  /\ (forall e, In (EFetchHabits (Err e)) (trace r') ->
       invoked OpGetHabits (trace r') = true).
Proof.
  intros r r' Hf Hm Hu Hne Hread.
  destruct (sync_metadata_written p w fetched m (Ok tt) Hf Hm) as [Hid Hs].
  rewrite Hu in Hid.
  split.
  - apply ownershipKnown_ownershipTagged. exact (tagged_known m u Hid Hne Hs).
  - exact (sync_on_tagged_metadata p' w' m u Hid Hne Hs Hread).
Qed.

(** ** The intents compose *)

(** X13: [setScope] and [setSelectedDate] commute: in either order they leave the
    presenter with the chosen scope and date, isLoading = false and the
    statistics of the in-memory data for that scope and date. *)
Theorem setScope_setSelectedDate_commute (sc : Scope) (date : Date)
    (p : Presenter) (w : W) :
  let r1 := exec (setScope sc) p w in
  let r12 := exec (setSelectedDate date) (final r1) (world r1) in
  let r2 := exec (setSelectedDate date) p w in
  let r21 := exec (setScope sc) (final r2) (world r2) in
  final r12 = final r21
  /\ scope (state (final r12)) = sc
  /\ selectedDate (state (final r12)) = date
  /\ isLoading (state (final r12)) = false
  /\ statsView (state (final r12))
     = match habits p with
       | [] => emptyView
       | _ :: _ => viewOf (reduceStatistics (habits p) (completions p) sc date)
       end.
Proof.
  destruct p as [s c hs cs]; destruct hs; cbn; repeat split.
Qed.

(** ** Overlapping syncs *)

Lemma refresh_called_keeps_cache (p : Presenter) (w : W) :
  cache (a_final (advance handle clock refresh p w)) = cache p.
Proof.
  destruct p as [s [[]|] hs cs]; unfold_presenter; cbn.
  all: now destruct (clock w) as [d w1].
Qed.

Lemma refresh_settles_in_two_turns (p q : Presenter) (w w' : W) :
  cache p = None -> cache q = None ->
  let pending := a_susp (advance handle clock refresh p w) in
  let a := resume handle clock pending q w' in
  let a' := resume handle clock (a_susp a) (a_final a) (a_world a) in
  awaited pending = Some OpFetchHabits
  /\ awaited (a_susp a') = None
  /\ isSyncing (state (a_final a')) = false.
Proof.
  intros Hp Hq.
  destruct p as [s [[]|] hs cs]; [discriminate Hp |].
  destruct q as [s' [[]|] hs' cs']; [discriminate Hq |].
  unfold resume; unfold_presenter; cbn.
  destruct (clock w) as [d w1]; cbn.
  repeat (world_step; cbn).
  all: repeat split.
Qed.

(** X14: Two calls of [refresh] made back to back without a Local Store: once the
    promises of the first have settled, isSyncing is published false although
    the second is still waiting for its [fetchHabits]. *)
Theorem overlapping_refresh_clears_isSyncing_early (p : Presenter) (w : W) :
  cache p = None ->
  let b := twice handle clock refresh [First; First] p w in
  awaited (b_first b) = None
  /\ awaited (b_second b) = Some OpFetchHabits
  /\ isSyncing (state (b_final b)) = false.
Proof.
  intros Hc b; subst b.
  unfold twice; cbv zeta; cbn [interleave b_first b_second b_final].
  set (a1 := advance handle clock refresh p w).
  set (a2 := advance handle clock refresh (a_final a1) (a_world a1)).
  assert (H1 : cache (a_final a1) = None)
    by (unfold a1; rewrite refresh_called_keeps_cache; exact Hc).
  assert (H2 : cache (a_final a2) = None)
    by (unfold a2; rewrite refresh_called_keeps_cache; exact H1).
  destruct (refresh_settles_in_two_turns p (a_final a2) w (a_world a2) Hc H2)
    as (_ & Hdone & Hflag).
  destruct (refresh_settles_in_two_turns (a_final a1) (a_final a1) (a_world a1) (a_world a1)
              H1 H1) as (Hsecond & _ & _).
  split; [exact Hdone | split; [exact Hsecond | exact Hflag]].
Qed.

End Properties.

(** * The presenter on concrete devices *)

Section Devices.

Import Demo Scenarios.

Local Abbreviation go := (run demo_handle demo_clock).

Ltac find_event := vm_compute; repeat (first [left; reflexivity | right]).

Lemma computeStatistics_empty_habits_witness :
  let r := go (computeStatistics weekly noon) unopened (deviceOfA (Ok habitsA) (Ok completionsA)) in
  outcome r = Returned None
  /\ periodStats (state (final r)) = None
  /\ trends (state (final r)) = []
  /\ heatmap (state (final r)) = []
  /\ snapshot (state (final r)) = None
  /\ insights (state (final r)) = None
  /\ activity (state (final r)) = [].
Proof.
  exact (computeStatistics_empty_habits Env demo_handle demo_clock weekly noon unopened
           (deviceOfA (Ok habitsA) (Ok completionsA)) eq_refl).
Defined.

Lemma computeStatistics_deterministic_witness :
  let p := with_completions completionsA (with_habits habitsA unopened) in
  let p' := with_state (offlineSet true) (with_cache (Some LocalStore) p) in
  let w := deviceOfA (Ok habitsA) (Ok completionsA) in
  let w' := deviceOfA (Err NETWORK_DOWN) (Err NETWORK_DOWN) in
  let r := go (computeStatistics daily noon) p w in
  let r' := go (computeStatistics daily noon) p' w' in
  outcome r' = outcome r
  /\ statsView (state (final r')) = statsView (state (final r))
  /\ habits (final r) = habits p
  /\ completions (final r) = completions p
  /\ go (computeStatistics daily noon) (final r) (world r) = r.
Proof.
  exact (computeStatistics_deterministic Env demo_handle demo_clock daily noon
           (with_completions completionsA (with_habits habitsA unopened))
           (with_state (offlineSet true)
              (with_cache (Some LocalStore)
                 (with_completions completionsA (with_habits habitsA unopened))))
           (deviceOfA (Ok habitsA) (Ok completionsA))
           (deviceOfA (Err NETWORK_DOWN) (Err NETWORK_DOWN))
           eq_refl eq_refl).
Defined.

(** A first sync shows A's statistics; then the network goes down on
    a presenter without Local Store. *)
Lemma sync_failure_keeps_statistics_witness :
  let shown := final (go sync unopened (deviceOfA (Ok habitsA) (Ok completionsA))) in
  let r := go sync shown (deviceOfA (Err NETWORK_DOWN) (Err NETWORK_DOWN)) in
  statsView (state shown) <> emptyView
  /\ error (state (final r)) = Some SYNC_ERROR_MESSAGE
  /\ statsView (state (final r)) = statsView (state shown)
  /\ isLoading (state (final r)) = false.
Proof.
  split.
  - vm_compute; discriminate.
  - apply (sync_failure_keeps_statistics Env demo_handle demo_clock
             (final (go sync unopened (deviceOfA (Ok habitsA) (Ok completionsA))))
             (deviceOfA (Err NETWORK_DOWN) (Err NETWORK_DOWN))).
    vm_compute; discriminate.
Defined.

Lemma metadataOfA_tagged : ownershipTagged (Some (metadataOf (Some "A"%string))).
Proof.
  split.
  - eexists _, _; split; reflexivity.
  - exists "A"%string; split; [reflexivity | discriminate].
Qed.



(** B signs in on a device last synced by A. *)
Lemma sync_clears_untrusted_cache_witness :
  let r := go sync opened (deviceOfA (Ok habitsB) (Ok completionsB)) in
  cleared_before_writing (trace r) = true
  /\ store_habits (world r) = habitsB
  /\ store_completions (world r) = completionsB.
Proof.
  intros r. split; [| split; reflexivity].
  assert (Hin : In (EFetchHabits (Ok habitsB)) (trace r)) by find_event.
  destruct (sync_clears_untrusted_cache Env demo_handle demo_clock opened
              (deviceOfA (Ok habitsB) (Ok completionsB)) habitsB)
    as (_ & _ & Hab); [reflexivity | exact Hin |].
  apply (Hab "A"%string "B"%string); solve [reflexivity | discriminate].
Defined.

(** On a device last synced by A, the gateway answers with a habit whose
    [userId] is empty: [clearAll] is invoked although none of the three stated
    conditions holds when identifiers are present if non-empty.  When they are
    present if non-null, the same happens on a device whose metadata and
    fetched habit both carry the empty identifier. *)
Lemma sync_clear_condition_as_stated_fails :
  (let fetched := habitsOfNobody in
   let r := go sync opened (deviceOfA (Ok fetched) (Ok [])) in
   In (EFetchHabits (Ok fetched)) (trace r)
   /\ invoked OpClearAll (trace r) = true
   /\ ~ clearConditionStated nonEmpty (metadataRead (trace r)) fetched)
  /\ (let fetched := habitsOfNobody in
      let r := go sync opened
                 (device (Some (metadataOf (Some EmptyString))) [] [] (Ok fetched) (Ok [])) in
      In (EFetchHabits (Ok fetched)) (trace r)
      /\ invoked OpClearAll (trace r) = true
      /\ ~ clearConditionStated nonNull (metadataRead (trace r)) fetched).
Proof.
  split; intros fetched r.
  - split; [find_event | split; [reflexivity |]].
    intros [[_ Hno] | [(_ & (s & Hs & Hne) & _) | [Hnil _]]].
    + apply Hno. exists "A"%string; split; [reflexivity | discriminate].
    + injection Hs as <-. now apply Hne.
    + discriminate Hnil.
  - split; [find_event | split; [reflexivity |]].
    intros [[_ Hno] | [(_ & _ & Hdiff) | [Hnil _]]].
    + apply Hno. discriminate.
    + now apply Hdiff.
    + discriminate Hnil.
Qed.

(** The gateway is unreachable and there is no Local Store: the sync ends with
    isSyncing = false and the error, and lastSync is still null. *)
Lemma sync_failure_leaves_lastSync :
  let r := go sync unopened (deviceOfA (Err NETWORK_DOWN) (Err NETWORK_DOWN)) in
  outcome r = Returned tt
  /\ isSyncing (state (final r)) = false
  /\ error (state (final r)) = Some SYNC_ERROR_MESSAGE
  /\ lastSync (state (final r)) = None.
Proof.
  vm_compute. repeat split.
Qed.

(** [refresh(); refresh()] on A's device: the second call is made while
    isSyncing is true, both run to completion and the gateway is asked for the
    habits twice. *)
Lemma refresh_twice_fetches_twice :
  let w := deviceOfA (Ok habitsA) (Ok completionsA) in
  let b := twice demo_handle demo_clock refresh round_robin opened w in
  isSyncing (state (a_final (advance demo_handle demo_clock refresh opened w))) = true
  /\ awaited (b_first b) = None /\ awaited (b_second b) = None
  /\ count_op OpFetchHabits (b_trace b) = 2%nat
  /\ count_op OpFetchCompletions (b_trace b) = 2%nat.
Proof.
  vm_compute. repeat split.
Qed.

Lemma demo_mirror_down_differs : differ_on_mirror_only demo_handle demo_handle_mirror_down.
Proof.
  split; intros X c w; destruct c; cbn; intros; reflexivity || congruence.
Qed.




End Devices.

(** * Properties of the settings presenter *)

Section SettingsProperties.

Import Settings.

(** ** The change map *)

Lemma strict_eq_true (a b : Value) : strict_eq a b = true <-> a = b.
Proof.
  destruct a as [x| [] |], b as [y| [] |]; cbn; try (split; congruence).
  destruct (String.eqb_spec x y); split; congruence.
Qed.

Lemma strict_eq_same (a : Value) : strict_eq a a = true.
Proof. now apply strict_eq_true. Qed.

Lemma map_get_delete_same (f : SettingsField) (m : list (SettingsField * FieldChange)) :
  map_get f (map_delete f m) = None.
Proof.
  induction m as [|[g c] m IH]; cbn; [reflexivity |].
  destruct (SettingsField_eq_dec g f) as [->|Hne]; [exact IH |].
  cbn. now destruct (SettingsField_eq_dec g f).
Qed.

Lemma map_get_delete_other (f g : SettingsField) (m : list (SettingsField * FieldChange)) :
  g <> f -> map_get g (map_delete f m) = map_get g m.
Proof.
  intros Hne. induction m as [|[h c] m IH]; cbn; [reflexivity |].
  destruct (SettingsField_eq_dec h f) as [->|Hhf].
  - destruct (SettingsField_eq_dec f g); [congruence | exact IH].
  - cbn. destruct (SettingsField_eq_dec h g); [reflexivity | exact IH].
Qed.

Lemma map_get_set_same (f : SettingsField) (c : FieldChange)
    (m : list (SettingsField * FieldChange)) :
  map_get f (map_set f c m) = Some c.
Proof.
  induction m as [|[g d] m IH]; cbn.
  - now destruct (SettingsField_eq_dec f f).
  - destruct (SettingsField_eq_dec g f) as [->|Hne]; cbn.
    + now destruct (SettingsField_eq_dec f f).
    + destruct (SettingsField_eq_dec g f); [contradiction | exact IH].
Qed.

Lemma map_get_set_other (f g : SettingsField) (c : FieldChange)
    (m : list (SettingsField * FieldChange)) :
  g <> f -> map_get g (map_set f c m) = map_get g m.
Proof.
  intros Hne. induction m as [|[h d] m IH]; cbn.
  - destruct (SettingsField_eq_dec f g); [congruence | reflexivity].
  - destruct (SettingsField_eq_dec h f) as [->|Hhf]; cbn.
    + destruct (SettingsField_eq_dec f g); [congruence | reflexivity].
    + destruct (SettingsField_eq_dec h g); [reflexivity | exact IH].
Qed.

Lemma keys_delete_subset (f x : SettingsField) (m : list (SettingsField * FieldChange)) :
  In x (map fst (map_delete f m)) -> In x (map fst m).
Proof.
  induction m as [|[g c] m IH]; cbn; [tauto |].
  destruct (SettingsField_eq_dec g f); cbn; tauto.
Qed.

Lemma keys_set_subset (f x : SettingsField) (c : FieldChange)
    (m : list (SettingsField * FieldChange)) :
  In x (map fst (map_set f c m)) -> x = f \/ In x (map fst m).
Proof.
  induction m as [|[g d] m IH]; cbn.
  - intros [<-|[]]; now left.
  - destruct (SettingsField_eq_dec g f); cbn; tauto.
Qed.

Lemma NoDup_keys_delete (f : SettingsField) (m : list (SettingsField * FieldChange)) :
  NoDup (map fst m) -> NoDup (map fst (map_delete f m)).
Proof.
  induction m as [|[g c] m IH]; cbn; intros Hnd; [constructor |].
  inversion Hnd as [|? ? Hnotin Hrest]; subst.
  destruct (SettingsField_eq_dec g f); cbn; [now apply IH |].
  constructor; [| now apply IH].
  intros Hin; apply Hnotin. now apply keys_delete_subset in Hin.
Qed.

Lemma NoDup_keys_set (f : SettingsField) (c : FieldChange)
    (m : list (SettingsField * FieldChange)) :
  NoDup (map fst m) -> NoDup (map fst (map_set f c m)).
Proof.
  induction m as [|[g d] m IH]; cbn; intros Hnd.
  - constructor; [tauto | constructor].
  - inversion Hnd as [|? ? Hnotin Hrest]; subst.
    destruct (SettingsField_eq_dec g f); cbn; [now constructor |].
    constructor; [| now apply IH].
    intros Hin. apply keys_set_subset in Hin as [->|Hin]; [congruence | contradiction].
Qed.

Lemma key_tracked (f : SettingsField) (m : list (SettingsField * FieldChange)) :
  In f (map fst m) <-> map_get f m <> None.
Proof.
  induction m as [|[g c] m IH]; cbn; [tauto |].
  destruct (SettingsField_eq_dec g f) as [->|Hne].
  - split; [discriminate | now left].
  - rewrite <- IH. split; [intros [Hgf|Hin]; [contradiction | exact Hin] | now right].
Qed.

Lemma no_key_tracked (m : list (SettingsField * FieldChange)) :
  m = [] <-> forall f, map_get f m = None.
Proof.
  split; [intros -> f; reflexivity |].
  destruct m as [|[g c] m]; [reflexivity |].
  intros H. specialize (H g). cbn in H.
  now destruct (SettingsField_eq_dec g g).
Qed.

(** ** setField keeps the change map in step with the state *)

Lemma Tracks_start (p : Presenter) : changes p = [] -> Tracks (fields (state p)) p.
Proof.
  intros Hc. unfold Tracks. rewrite Hc. split; [constructor | reflexivity].
Qed.

Lemma Tracks_setField (base : SettingsField -> Value) (f : SettingsField) (v : Value)
    (p : Presenter) :
  Tracks base p -> Tracks base (setField f v p).
Proof.
  intros [Hnd Hall].
  assert (Horig : match map_get f (changes p) with
                  | Some c => original c
                  | None => fields (state p) f
                  end = base f).
  { specialize (Hall f). destruct (map_get f (changes p)); tauto. }
  unfold Tracks, setField; cbn. rewrite Horig.
  destruct (strict_eq (base f) v) eqn:Heq; split.
  - now apply NoDup_keys_delete.
  - intros g. destruct (SettingsField_eq_dec g f) as [->|Hne].
    + rewrite map_get_delete_same. symmetry. now apply strict_eq_true.
    + rewrite map_get_delete_other by exact Hne. exact (Hall g).
  - now apply NoDup_keys_set.
  - intros g. destruct (SettingsField_eq_dec g f) as [->|Hne].
    + rewrite map_get_set_same; cbn. repeat split. exact Heq.
    + rewrite map_get_set_other by exact Hne. exact (Hall g).
Qed.

Lemma Tracks_setFields (base : SettingsField -> Value)
    (edits : list (SettingsField * Value)) (p : Presenter) :
  Tracks base p -> Tracks base (setFields edits p).
Proof.
  revert p. induction edits as [|[f v] edits IH]; cbn; intros p Ht; [exact Ht |].
  apply IH. now apply Tracks_setField.
Qed.

(** X15: After any sequence of [setField] calls on a presenter without unsaved
    changes, the changed fields are exactly the fields whose value differs from
    the value they had before the edits, each tracked with that value as its
    original; [hasUnsavedChanges] is false exactly when every field is back
    to its value. *)
Theorem changedFields_are_the_modified_fields
    (edits : list (SettingsField * Value)) (p : Presenter) :
  changes p = [] ->
  let p' := setFields edits p in
  (forall f, In f (changedFields p') <-> fields (state p') f <> fields (state p) f)
  /\ (forall f c, map_get f (changes p') = Some c ->
        original c = fields (state p) f /\ current c = fields (state p') f)
  /\ (hasUnsavedChanges p' = false
      <-> forall f, fields (state p') f = fields (state p) f)
  /\ NoDup (changedFields p').
Proof.
  intros Hc p'.
  destruct (Tracks_setFields _ edits p (Tracks_start p Hc)) as [Hnd Hall].
  fold p' in Hnd, Hall.
  split; [| split; [| split; [| exact Hnd]]].
  - intros f. unfold changedFields. rewrite key_tracked.
    specialize (Hall f). destruct (map_get f (changes p')) as [c|].
    + destruct Hall as (_ & _ & Hdiff). split; [| discriminate].
      intros _ Heq. rewrite Heq, strict_eq_same in Hdiff. discriminate.
    + split; [intros H; now elim H | intros H; now elim H].
  - intros f c Hget. specialize (Hall f). rewrite Hget in Hall. tauto.
  - unfold hasUnsavedChanges. rewrite negb_false_iff, Nat.eqb_eq, length_zero_iff_nil.
    rewrite no_key_tracked. split; intros H f; specialize (Hall f); specialize (H f).
    + now rewrite H in Hall.
    + destruct (map_get f (changes p')) as [c|]; [| reflexivity].
      destruct Hall as (_ & _ & Hdiff).
      rewrite <- H, strict_eq_same in Hdiff. discriminate.
Qed.

(** ** discardAll *)

Lemma discard_fold_frame (l : list (SettingsField * FieldChange)) (p : Presenter) :
  let q := fold_left discardOne l p in
  browser q = browser p /\ storage q = storage p /\ changes q = changes p
  /\ avatarUrl (state q) = avatarUrl (state p)
  /\ isLoading (state q) = isLoading (state p)
  /\ isSaving (state q) = isSaving (state p)
  /\ isUploadingAvatar (state q) = isUploadingAvatar (state p)
  /\ error (state q) = error (state p)
  /\ avatarStore (stores q) = avatarStore (stores p).
Proof.
  revert p. induction l as [|[f c] l IH]; intros p; cbv zeta; cbn [fold_left];
    [repeat split |].
  destruct (IH (discardOne p (f, c))) as (H1 & H2 & H3 & H4 & H5 & H6 & H7 & H8 & H9).
  rewrite H1, H2, H3, H4, H5, H6, H7, H8, H9.
  destruct f; repeat split.
Qed.

Lemma discard_fold_fields (l : list (SettingsField * FieldChange)) (p : Presenter)
    (g : SettingsField) :
  NoDup (map fst l) ->
  fields (state (fold_left discardOne l p)) g
  = match map_get g l with
    | Some c => original c
    | None => fields (state p) g
    end.
Proof.
  revert p. induction l as [|[f c] l IH]; cbn; intros p Hnd; [reflexivity |].
  inversion Hnd as [|? ? Hnotin Hrest]; subst.
  rewrite IH by exact Hrest; cbn.
  destruct (SettingsField_eq_dec f g) as [->|Hne].
  - assert (Hnone : map_get g l = None).
    { destruct (map_get g l) eqn:E; [| reflexivity].
      elim Hnotin. apply key_tracked. congruence. }
    rewrite Hnone. now destruct (SettingsField_eq_dec g g).
  - destruct (map_get g l); [reflexivity |].
    destruct (SettingsField_eq_dec g f); [congruence | reflexivity].
Qed.

(** X16: After any sequence of [setField] calls on a presenter without unsaved
    changes, [discardAll] gives every field the value it had before the
    edits and empties the change map; the avatar, the flags, the error and the
    storage are untouched. *)
Theorem discardAll_restores_the_fields
    (edits : list (SettingsField * Value)) (p : Presenter) :
  changes p = [] ->
  let p' := discardAll (setFields edits p) in
  (forall f, fields (state p') f = fields (state p) f)
  /\ changes p' = []
  /\ hasUnsavedChanges p' = false
  /\ avatarUrl (state p') = avatarUrl (state (setFields edits p))
  /\ error (state p') = error (state (setFields edits p))
  /\ storage p' = storage (setFields edits p).
Proof.
  intros Hc p'.
  destruct (Tracks_setFields _ edits p (Tracks_start p Hc)) as [Hnd Hall].
  destruct (discard_fold_frame (changes (setFields edits p)) (setFields edits p))
    as (_ & Hst & _ & Hav & _ & _ & _ & Herr & _).
  split; [| repeat split; assumption].
  intros f. unfold p', discardAll; cbn.
  rewrite discard_fold_fields by exact Hnd.
  specialize (Hall f). destruct (map_get f (changes (setFields edits p))); tauto.
Qed.

(** ** The global stores *)

Lemma StoresFollow_setField (f : SettingsField) (v : Value) (p : Presenter) :
  StoresFollow p -> StoresFollow (setField f v p).
Proof.
  intros (Ht & Hm & Hcn). unfold StoresFollow, setField; cbn.
  destruct f; cbn; repeat split; assumption.
Qed.

Lemma StoresFollow_discardOne (p : Presenter) (e : SettingsField * FieldChange) :
  StoresFollow p -> StoresFollow (discardOne p e).
Proof.
  destruct e as [f c]. intros (Ht & Hm & Hcn). unfold StoresFollow, discardOne; cbn.
  destruct f; cbn; repeat split; assumption.
Qed.

(** X17: If the theme, motion and country stores show the state's values, they
    still do after any sequence of [setField] calls and after a
    [discardAll]. *)
Theorem stores_follow_edits_and_discard
    (edits : list (SettingsField * Value)) (p : Presenter) :
  StoresFollow p ->
  StoresFollow (setFields edits p) /\ StoresFollow (discardAll (setFields edits p)).
Proof.
  intros Hp.
  assert (Hedits : StoresFollow (setFields edits p)).
  { revert p Hp. induction edits as [|[f v] edits IH]; cbn; intros p Hp; [exact Hp |].
    apply IH. now apply StoresFollow_setField. }
  split; [exact Hedits |].
  unfold discardAll.
  assert (Hfold : forall l q, StoresFollow q -> StoresFollow (fold_left discardOne l q)).
  { induction l as [|e l IH]; cbn; intros q Hq; [exact Hq |].
    apply IH. now apply StoresFollow_discardOne. }
  exact (Hfold _ _ Hedits).
Qed.

Lemma writeCache_state (t : Z) (r : UserSettingsResponse) (p : Presenter) :
  state (writeCache t r p) = state p.
Proof. unfold writeCache. now destruct (browser p), (storage p). Qed.

(** ** The settings cache *)

(** X18: In a browser with storage [writeCache] stores the response with its
    time, and what it stored is read back by [readCache] for five minutes
    (300000 ms) and not after; outside a browser or without storage
    [writeCache] changes nothing and nothing is read. *)
Theorem readCache_after_writeCache (t t' : Z) (r : UserSettingsResponse) (p : Presenter) :
  (browser p = true -> storage p <> None ->
     storage (writeCache t r p) = Some (Some (Entry t r))
     /\ (t' - t <= 300000 -> readCache t' (writeCache t r p) = Some r)
     /\ (300000 < t' - t -> readCache t' (writeCache t r p) = None))
  /\ (browser p = false \/ storage p = None ->
      writeCache t r p = p
      /\ readCache t' (writeCache t r p) = None).
Proof.
  unfold readCache, writeCache, SETTINGS_CACHE_TTL_MS.
  destruct p as [b [st|] s c g]; destruct b; cbn; split.
  all: try (intros [H|H]; first [discriminate H | split; reflexivity]).
  all: try (intros H1 H2; first [discriminate H1 | now elim H2]).
  intros _ _. split; [reflexivity |].
  match goal with
  | |- context [?a >? ?b] => destruct (Z.gtb_spec a b)
  end; split; intros; first [reflexivity | lia].
Qed.

(** X19: Settings saved with success are shown from the cache by a presenter
    created within five minutes on the same storage: [initFromCache] succeeds
    and gives every field but [email] and [reduceMotion] the saved value;
    these two are not cached and keep their initial values. *)
Theorem saved_settings_shown_from_cache (t t' : Z) (r : UserSettingsResponse)
    (p : Presenter) (g : Stores) :
  browser p = true -> storage p <> None -> t' - t <= SETTINGS_CACHE_TTL_MS ->
  let saved := snd (saveAll t (Resolved r) p) in
  let visit := initFromCache t' (createSettingsPresenter true (storage saved) g) in
  fst visit = true
  /\ (forall f, f <> email -> f <> reduceMotion ->
        fields (state (snd visit)) f = fields (state saved) f)
  /\ avatarUrl (state (snd visit)) = avatarUrl (state saved)
  /\ isLoading (state (snd visit)) = false
  /\ fields (state (snd visit)) email = VString EmptyString
  /\ fields (state (snd visit)) reduceMotion = VBool false.
Proof.
  intros Hb Hs Ht saved visit.
  destruct p as [b [st|] s c gl]; [| now elim Hs]. cbn in Hb; subst b.
  subst saved visit. unfold initFromCache, readCache, saveAll, saveAll_called; cbn.
  unfold SETTINGS_CACHE_TTL_MS in Ht.
  match goal with
  | |- context [?a >? ?b] => destruct (Z.gtb_spec a b) as [Hgt|_]; [lia |]
  end.
  cbn. repeat split. intros f Hfe Hfr. now destruct f.
Qed.

(** ** saveAll *)



(** X22: A response that is not ok makes [saveAll] fail with "Not authenticated"
    for status 401 and "Failed to update preferences" for any other status;
    the message is published and the unsaved changes are kept. *)
Theorem saveAll_reports_http_failure (t : Z) (res : Response UserSettingsResponse)
    (p : Presenter) :
  ok res = false ->
  let result := fst (saveAll t (updatePreferences (Resolved res)) p) in
  let p' := snd (saveAll t (updatePreferences (Resolved res)) p) in
  let message :=
    if status res =? 401 then "Not authenticated"%string
    else "Failed to update preferences"%string in
  success result = false
  /\ failure result = Some message
  /\ error (state p') = Some message
  /\ changes p' = changes p
  /\ isSaving (state p') = false.
Proof.
  intros Hok; unfold updatePreferences; rewrite Hok; cbn.
  destruct (status res =? 401); cbn; repeat split.
Qed.

(** ** uploadAvatar *)

(** X23: [uploadAvatar] always ends with isUploadingAvatar = false and never
    touches the fields or the change map.  On success the new URL is in the
    state and in the avatar store and the settings cache is invalidated, so
    that [initFromCache] finds nothing; on rejection the message is published
    and the avatar and the storage are untouched. *)
Theorem uploadAvatar_outcomes (t : Z) (reply : Settled AvatarUploadResponse)
    (p : Presenter) :
  let result := fst (uploadAvatar reply p) in
  let p' := snd (uploadAvatar reply p) in
  isUploadingAvatar (state p') = false
  /\ changes p' = changes p
  /\ (forall f, fields (state p') f = fields (state p) f)
  /\ match reply with
     | Resolved a =>
         uploaded result = true
         /\ uploadedUrl result = Some (av_imageUrl a)
         /\ avatarUrl (state p') = Some (av_imageUrl a)
         /\ avatarStore (stores p') = Some (av_imageUrl a)
         /\ error (state p') = None
         /\ readCache t p' = None
         /\ fst (initFromCache t p') = false
     | Rejected th =>
         uploaded result = false
         /\ uploadFailure result = Some (messageOf th "Could not upload avatar")
         /\ error (state p') = uploadFailure result
         /\ avatarUrl (state p') = avatarUrl (state p)
         /\ avatarStore (stores p') = avatarStore (stores p)
         /\ storage p' = storage p
     end.
Proof.
  destruct p as [b [st|] s c g]; destruct b, reply as [a|th]; cbn; repeat split.
Qed.

(** X24: A response that is not ok makes [uploadAvatar] fail, publish the
    message it reports and leave the avatar as it was.  The message is that
    of the response body when it is a non-empty string; "Upload failed" when
    the body has no message, an empty or otherwise falsy one, or does not
    parse; the text of the TypeError when the body is [null], whose message
    cannot be read; and for a truthy message that is not a string, what
    [new Error] makes of it. *)
Theorem uploadAvatar_reports_http_failure (typeErrorText : TypeErrorSite -> string)
    (st : Z) (body : Settled ErrorBody) (p : Presenter) :
  let reply := apiUploadAvatar typeErrorText (Resolved (UploadNotOk st body)) in
  let result := fst (uploadAvatar reply p) in
  let p' := snd (uploadAvatar reply p) in
  uploaded result = false
  /\ error (state p') = uploadFailure result
  /\ avatarUrl (state p') = avatarUrl (state p)
  /\ (forall m, body = Resolved (BodyWith (StringMessage m)) -> m <> EmptyString ->
      uploadFailure result = Some m)
  /\ (body = Resolved (BodyWith (StringMessage EmptyString))
      \/ body = Resolved (BodyWith NoMessage)
      \/ (exists t, body = Rejected t) ->
      uploadFailure result = Some "Upload failed"%string)
  /\ (body = Resolved NullBody -> uploadFailure result = Some (typeErrorText ReadOfNull))
  /\ (forall isTruthy text, body = Resolved (BodyWith (OtherMessage isTruthy text)) ->
      uploadFailure result
      = Some (if isTruthy then
                match text with
                | Some m => m
                | None => typeErrorText NoPrimitiveValue
                end
              else "Upload failed"%string)).
Proof.
  cbn. repeat split.
  - intros m -> Hm; cbn.
    destruct (String.eqb_spec m EmptyString); [now elim Hm | reflexivity].
  - intros [-> | [-> | [t ->]]]; reflexivity.
  - now intros ->.
  - intros isTruthy text ->. now destruct isTruthy, text.
Qed.

(** ** loadSettings *)


(** ** applySettings *)

(** X26: Applying a response without any property gives every field but [email]
    and [reduceMotion] its initial value, and an empty theme counts as
    missing: the defaults of [applySettings] are those of [initialState].
    Whatever the response, [reduceMotion] is kept, and [email] is kept when
    none (or null) is passed and is the address passed otherwise. *)
Theorem applySettings_defaults (mail : option Value) (r : UserSettingsResponse)
    (p : Presenter) :
  (forall f, f <> email -> f <> reduceMotion ->
     fields (state (applySettings emptyResponse mail p)) f = initialFields f)
  /\ fields (state (applySettings r None p)) email = fields (state p) email
  /\ fields (state (applySettings r (Some VNull) p)) email = fields (state p) email
  /\ (forall v, v <> VNull -> fields (state (applySettings r (Some v) p)) email = v)
  /\ fields (state (applySettings r mail p)) reduceMotion = fields (state p) reduceMotion
  /\ (r_theme r = Some EmptyString \/ r_theme r = None ->
      fields (state (applySettings r mail p)) theme = VString "system"
      /\ themeStore (stores (applySettings r mail p)) = VString "system").
Proof.
  repeat split.
  - intros f Hfe Hfr. now destruct f.
  - intros v Hv. cbn. now destruct v.
  - destruct H as [H|H]; cbn; now rewrite H.
  - destruct H as [H|H]; cbn; now rewrite H.
Qed.

End SettingsProperties.

(** ** The further properties on concrete devices *)

Section MoreDevices.

Import Demo Scenarios.

Local Abbreviation go := (run demo_handle demo_clock).

Ltac find_event := vm_compute; repeat (first [left; reflexivity | right]).

(** A's statistics are shown, then a sync without Local Store fails. *)
Lemma sync_failure_publishes_flags_only_witness :
  let shown := final (go sync unopened (deviceOfA (Ok habitsA) (Ok completionsA))) in
  let r := go sync shown (unplugged (deviceOfA (Ok habitsA) (Ok completionsA))) in
  state (final r) = syncFailed (state shown) /\ cache (final r) = cache shown.
Proof.
  apply (sync_failure_publishes_flags_only Env demo_handle demo_clock
           (final (go sync unopened (deviceOfA (Ok habitsA) (Ok completionsA))))
           (unplugged (deviceOfA (Ok habitsA) (Ok completionsA)))).
  vm_compute; discriminate.
Defined.

Lemma sync_metadata_read_rejected_witness :
  let r := go sync opened brokenStore in
  invoked OpFetchHabits (trace r) = false
  /\ invoked OpFetchCompletions (trace r) = false
  /\ invoked OpSetServerCache (trace r) = false
  /\ error (state (final r)) = Some SYNC_ERROR_MESSAGE
  /\ habits (final r) = habits opened /\ completions (final r) = completions opened.
Proof.
  apply (sync_metadata_read_rejected Env demo_handle demo_clock opened brokenStore
           STORAGE_UNAVAILABLE).
  find_event.
Defined.


(** B signs in on A's device and the completions cannot be fetched: the store
    has been cleared, the fallback is granted on the metadata read before, and
    B is shown an empty offline view. *)
Lemma sync_fresh_path_rejection_falls_back_witness :
  let r := go sync opened (deviceOfA (Ok habitsB) (Err NETWORK_DOWN)) in
  invoked OpClearAll (trace r) = true
  /\ invoked OpGetCompletions (trace r) = true
  /\ fallbackServed (trace r) (final r)
  /\ habits (final r) = [] /\ completions (final r) = [].
Proof.
  intros r. split; [reflexivity |].
  destruct (sync_fresh_path_rejection_falls_back Env demo_handle demo_clock opened
              (deviceOfA (Ok habitsB) (Err NETWORK_DOWN)) habitsB) as [Hserve _];
    [find_event | reflexivity |].
  destruct (Hserve metadataOfA_tagged) as (_ & Hthen & [Hok | Hno]).
  - split; [apply (Hthen []); find_event |].
    split; [exact Hok |].
    split; vm_compute; reflexivity.
  - destruct Hno as (_ & _ & Herr & _).
    vm_compute in Herr; discriminate Herr.
Defined.


Lemma sync_without_store_witness :
  let r := go sync unopened (unplugged freshDeviceOfA) in
  store_touched (trace r) = false
  /\ error (state (final r)) = Some SYNC_ERROR_MESSAGE
  /\ habits (final r) = [] /\ completions (final r) = [].
Proof.
  intros r.
  destruct (sync_without_store Env demo_handle demo_clock unopened
              (unplugged freshDeviceOfA) eq_refl) as [Hstore Hfail].
  split; [exact Hstore |].
  apply (Hfail NETWORK_DOWN). find_event.
Defined.

Lemma clearCache_rejected_witness :
  let r := go clearCache opened brokenStore in
  outcome r = Threw STORAGE_UNAVAILABLE /\ final r = opened
  /\ trace r = [EClearAll (Err STORAGE_UNAVAILABLE)].
Proof.
  apply (clearCache_rejected Env demo_handle demo_clock opened brokenStore
           STORAGE_UNAVAILABLE).
  reflexivity.
Defined.

(** A's statistics are shown; with the network down [clearCache] empties the
    memory and leaves the old statistics on screen until the next intent. *)
Lemma clearCache_failed_resync_witness :
  let online := deviceOfA (Ok habitsA) (Ok completionsA) in
  let shown := go sync opened online in
  let r := go clearCache (final shown) (unplugged (world shown)) in
  statsView (state (final shown)) <> emptyView
  /\ habits (final r) = [] /\ completions (final r) = []
  /\ error (state (final r)) = Some SYNC_ERROR_MESSAGE
  /\ statsView (state (final r)) = statsView (state (final shown))
  /\ statsView (state (final (go (setScope weekly) (final r) (world r)))) = emptyView.
Proof.
  intros online shown r.
  split; [vm_compute; discriminate |].
  pose proof (clearCache_failed_resync Env demo_handle demo_clock weekly (final shown)
                (unplugged (world shown)) (world r) NETWORK_DOWN) as H.
  cbv zeta in H.
  assert (H1 : In (EFetchHabits (Err NETWORK_DOWN)) (trace r)) by find_event.
  assert (H2 : ~ ownershipTagged (metadataRead (trace r))).
  { intros [(md & t & Hmd & _) _]. vm_compute in Hmd. discriminate Hmd. }
  exact (H H1 H2).
Defined.

(** A syncs twice on the same device. *)
Lemma sync_same_owner_keeps_cache_witness :
  let r := go sync opened freshDeviceOfA in
  let r' := go sync (final r) (world r) in
  let down := go sync (final r) (unplugged (world r)) in
  invoked OpClearAll (trace r') = false
  /\ invoked OpGetHabits (trace down) = true
  /\ habits (final down) = habitsA.
Proof.
  intros r r' down.
  set (m := {| lastHabitsSync := Some (noon + 1); lastCompletionsSync := Some (noon + 2);
               version := 1; meta_userId := Some "A"%string |}).
  assert (Hf : In (EFetchHabits (Ok habitsA)) (trace r)) by find_event.
  assert (Hm : In (ESetMetadata m (Ok tt)) (trace r)) by find_event.
  destruct (sync_same_owner_keeps_cache Env demo_handle demo_clock opened (final r)
              freshDeviceOfA (world r) habitsA m "A"%string)
    as (_ & Hkeep & _); [exact Hf | exact Hm | reflexivity | discriminate | find_event |].
  destruct (sync_same_owner_keeps_cache Env demo_handle demo_clock opened (final r)
              freshDeviceOfA (unplugged (world r)) habitsA m "A"%string)
    as (_ & _ & Hread); [exact Hf | exact Hm | reflexivity | discriminate | find_event |].
  split; [apply (Hkeep habitsA); [find_event | reflexivity] |].
  split; [apply (Hread NETWORK_DOWN); find_event | vm_compute; reflexivity].
Defined.

Lemma overlapping_refresh_clears_isSyncing_early_witness :
  let b := twice demo_handle demo_clock refresh [First; First] unopened freshDeviceOfA in
  awaited (b_first b) = None
  /\ awaited (b_second b) = Some OpFetchHabits
  /\ isSyncing (state (b_final b)) = false.
Proof.
  exact (overlapping_refresh_clears_isSyncing_early Env demo_handle demo_clock unopened
           freshDeviceOfA eq_refl).
Defined.

End MoreDevices.

(** ** The settings presenter on concrete values *)

Section SettingsRuns.

Import Settings.

Lemma changedFields_are_the_modified_fields_witness :
  let p' := setFields sampleEdits samplePresenter in
  changedFields p' = [name; pushEnabled; country]
  /\ (In theme (changedFields p')
      <-> fields (state p') theme <> fields (state samplePresenter) theme)
  /\ (forall c, map_get name (changes p') = Some c ->
        original c = VString EmptyString /\ current c = VString "Ada L.")
  /\ NoDup (changedFields p').
Proof.
  intros p'.
  destruct (changedFields_are_the_modified_fields sampleEdits samplePresenter eq_refl)
    as (Hiff & Horig & _ & Hnd).
  split; [reflexivity |].
  split; [exact (Hiff theme) |].
  split; [exact (Horig name) | exact Hnd].
Defined.

Lemma discardAll_restores_the_fields_witness :
  let p' := discardAll (setFields sampleEdits samplePresenter) in
  fields (state p') name = VString EmptyString
  /\ fields (state p') country = VString EmptyString
  /\ changes p' = []
  /\ hasUnsavedChanges p' = false.
Proof.
  intros p'.
  destruct (discardAll_restores_the_fields sampleEdits samplePresenter eq_refl)
    as (Hfields & Hc & Hu & _).
  split; [exact (Hfields name) |].
  split; [exact (Hfields country) |].
  split; [exact Hc | exact Hu].
Defined.

Lemma stores_follow_edits_and_discard_witness :
  StoresFollow (setFields sampleEdits samplePresenter)
  /\ StoresFollow (discardAll (setFields sampleEdits samplePresenter)).
Proof.
  apply (stores_follow_edits_and_discard sampleEdits samplePresenter).
  repeat split.
Defined.

Lemma saved_settings_shown_from_cache_witness :
  let saved := snd (saveAll 1000 (Resolved sampleResponse) samplePresenter) in
  let visit := initFromCache 200000 (createSettingsPresenter true (storage saved) sampleStores) in
  fst visit = true
  /\ fields (state (snd visit)) name = VString "Ada"
  /\ fields (state (snd visit)) theme = VString "dark"
  /\ avatarUrl (state (snd visit)) = Some "/avatars/ada.png"%string
  /\ isLoading (state (snd visit)) = false.
Proof.
  intros saved visit.
  destruct (saved_settings_shown_from_cache 1000 200000 sampleResponse samplePresenter
              sampleStores) as (Hhit & Hfields & Hav & Hload & _);
    [reflexivity | discriminate | unfold SETTINGS_CACHE_TTL_MS; lia |].
  split; [exact Hhit |].
  split; [etransitivity; [apply (Hfields name); discriminate | reflexivity] |].
  split; [etransitivity; [apply (Hfields theme); discriminate | reflexivity] |].
  split; [etransitivity; [exact Hav | reflexivity] | exact Hload].
Defined.

Lemma saveAll_reports_http_failure_witness :
  let edited := setFields sampleEdits samplePresenter in
  let result := fst (saveAll 1000 (updatePreferences (Resolved unauthorized)) edited) in
  let p' := snd (saveAll 1000 (updatePreferences (Resolved unauthorized)) edited) in
  success result = false
  /\ failure result = Some "Not authenticated"%string
  /\ error (state p') = Some "Not authenticated"%string
  /\ changes p' = changes edited
  /\ isSaving (state p') = false.
Proof.
  exact (saveAll_reports_http_failure 1000 unauthorized
           (setFields sampleEdits samplePresenter) eq_refl).
Defined.

(** A refused upload reports the body's message; one answered with [null]
    reports the engine's TypeError. *)
Lemma uploadAvatar_reports_http_failure_witness :
  let result := fst (uploadAvatar (apiUploadAvatar v8Text (Resolved tooLarge)) samplePresenter) in
  let result' :=
    fst (uploadAvatar (apiUploadAvatar v8Text (Resolved badGateway)) samplePresenter) in
  uploaded result = false
  /\ uploadFailure result = Some "File too large"%string
  /\ uploadFailure result' = Some "Cannot read properties of null (reading 'message')"%string.
Proof.
  intros result result'.
  destruct (uploadAvatar_reports_http_failure v8Text 413
              (Resolved (BodyWith (StringMessage "File too large"))) samplePresenter)
    as (Hup & _ & _ & Hmsg & _).
  destruct (uploadAvatar_reports_http_failure v8Text 502 (Resolved NullBody) samplePresenter)
    as (_ & _ & _ & _ & _ & Hnull & _).
  split; [exact Hup |].
  split; [apply (Hmsg _ eq_refl); discriminate | exact (Hnull eq_refl)].
Defined.

End SettingsRuns.
